(** * hometheater: the IMDb client of [src/hometheater/imdb.py]

    A shallow embedding of the class [IMDb] and the properties of its
    match scorer, its three searches and its four detail fetchers.

    Conventions of the embedding.
    - A Python [str] is a [string]; the two tables of the interpreter that
      the code consults through [str.lower], [str.split] and [str.strip]
      (the case mapping and the whitespace class) are parameters of the
      development, so every statement holds for whatever tables the
      interpreter has.  [ascii_lower] and [ascii_isspace] are the instances
      used to evaluate the functions on ASCII text.
    - A Python exception is a value of [exn]; a computation that may raise
      is a [result].  [try ... except Exception] is a [match] on it.
    - The true division of [_match_score] is exact rational division; the
      scores are rationals ([Q]).
    - Text is ASCII, except for the bullet that separates the number of an
      episode from its title, which is written as the three bytes of its
      UTF-8 encoding; [\d] is the ten ASCII digits.
    - The document tree returned by [BeautifulSoup] is represented by what
      the code reads from it: one field of [Soup] per selector. *)

From Stdlib Require Import Ascii String QArith Lqa.
From stdpp Require Import gmap strings list sorting.

#[local] Set Warnings "-register-all".
#[local] Open Scope string_scope.

(** ** Exceptions *)

Inductive exn : Set :=
  | AttributeError
  | TypeError
  | IndexError
  | ValueError
  | ZeroDivisionError.

Inductive result (A : Type) : Type :=
  | Ok (a : A)
  | Raise (e : exn).
Arguments Ok {A} a.
Arguments Raise {A} e.

#[global] Instance result_ret : MRet result := λ A a, Ok a.
#[global] Instance result_bind : MBind result := λ A B f m,
  match m with
  | Ok a => f a
  | Raise e => Raise e
  end.

(** ** Strings *)

(** [needle in hay] *)
Fixpoint contains (needle hay : string) : bool :=
  String.prefix needle hay ||
  match hay with
  | EmptyString => false
  | String _ hay' => contains needle hay'
  end.

Section Text.
Variable isspace : ascii → bool.

Definition flush (word : string) : list string :=
  match word with
  | EmptyString => []
  | _ => [word]
  end.

(** [s.split()]: the maximal runs of characters that are not whitespace;
    [word] is the run being read. *)
Fixpoint split_from (word s : string) : list string :=
  match s with
  | EmptyString => flush word
  | String c s' =>
      if isspace c then flush word ++ split_from "" s'
      else split_from (word ++ String c "") s'
  end.

Definition split (s : string) : list string := split_from "" s.

Fixpoint lstrip (s : string) : string :=
  match s with
  | EmptyString => ""
  | String c s' => if isspace c then lstrip s' else s
  end.

(** [rstrip s] drops the trailing whitespace: a character is kept when
    it is not whitespace or when something is kept after it. *)
Fixpoint rstrip (s : string) : string :=
  match s with
  | EmptyString => ""
  | String c s' =>
      match rstrip s' with
      | EmptyString => if isspace c then "" else String c ""
      | r => String c r
      end
  end.

(** [s.strip()] *)
Definition strip (s : string) : string := rstrip (lstrip s).
End Text.

(** The ASCII part of the interpreter's tables. *)
Definition ascii_isspace (c : ascii) : bool :=
  let n := nat_of_ascii c in
  (Nat.leb 9 n && Nat.leb n 13) || (Nat.leb 28 n && Nat.leb n 32).

Definition ascii_lower_char (c : ascii) : ascii :=
  let n := nat_of_ascii c in
  if Nat.leb 65 n && Nat.leb n 90 then ascii_of_nat (n + 32) else c.

Fixpoint ascii_lower (s : string) : string :=
  match s with
  | EmptyString => ""
  | String c s' => String (ascii_lower_char c) (ascii_lower s')
  end.

(** ** Regular expressions and conversions *)

Definition isdigit (c : ascii) : bool :=
  let n := nat_of_ascii c in Nat.leb 48 n && Nat.leb n 57.

(** The longest run of digits at the head of [s], and what follows it. *)
Fixpoint span_digits (s : string) : string * string :=
  match s with
  | EmptyString => ("", "")
  | String c s' =>
      if isdigit c
      then let '(digits, rest) := span_digits s' in (String c digits, rest)
      else ("", s)
  end.

Fixpoint skip (n : nat) (s : string) : string :=
  match n, s with
  | S n', String _ s' => skip n' s'
  | _, _ => s
  end.

(** A match of [before (\d+) after] at the head of [s], where [before] and
    [after] are literal and [after] does not start with a digit: the digits
    matched.  [\d+] is greedy, and giving back a digit cannot help, since
    what follows a shorter run is a digit. *)
Definition match_digits (before after s : string) : option string :=
  if String.prefix before s then
    let '(digits, rest) := span_digits (skip (String.length before) s) in
    match digits with
    | EmptyString => None
    | _ => if String.prefix after rest then Some digits else None
    end
  else None.

(** [re.search]: the leftmost match. *)
Fixpoint re_search_digits (before after s : string) : option string :=
  match match_digits before after s with
  | Some digits => Some digits
  | None =>
      match s with
      | EmptyString => None
      | String _ s' => re_search_digits before after s'
      end
  end.

Definition digit_value (c : ascii) : Z := Z.of_nat (nat_of_ascii c - 48).

Fixpoint int_from (acc : Z) (digits : string) : Z :=
  match digits with
  | EmptyString => acc
  | String c digits' => int_from (10 * acc + digit_value c) digits'
  end.

(** [int(digits)] on a run of digits; CPython refuses a run of more than
    4300 digits with a [ValueError]. *)
Definition int_max_str_digits : nat := 4300.

Definition int (digits : string) : result Z :=
  if Nat.leb (String.length digits) int_max_str_digits
  then Ok (int_from 0 digits)
  else Raise ValueError.

(** [s.split(sep)] for a non-empty [sep]: [part] is the piece being read,
    [pending] the number of characters of a separator still to pass. *)
Fixpoint split_sep_from (sep : string) (pending : nat) (part s : string) : list string :=
  match s with
  | EmptyString => [part]
  | String c s' =>
      match pending with
      | S pending' => split_sep_from sep pending' part s'
      | O =>
          if String.prefix sep s
          then part :: split_sep_from sep (String.length sep - 1) "" s'
          else split_sep_from sep 0 (part ++ String c "") s'
      end
  end.

Definition split_sep (sep s : string) : list string := split_sep_from sep 0 "" s.

(** U+2022, the bullet, in UTF-8. *)
Definition bullet : string :=
  String (ascii_of_nat 226) (String (ascii_of_nat 128) (String (ascii_of_nat 162) "")).

(** ** Stable sorting

    [list.sort] and [sorted] are stable, also with [reverse=True].  A stable
    sort has one possible outcome; it is computed here by insertion, from
    the right: an element is put before the first element that it may
    precede, hence before the elements of equal key that followed it. *)

Section Sort.
Context {A K : Type} (key : A → K) (precedes : K → K → bool).

Fixpoint insert_by (x : A) (l : list A) : list A :=
  match l with
  | [] => [x]
  | y :: l' =>
      if precedes (key x) (key y) then x :: l else y :: insert_by x l'
  end.

Definition sort_by (l : list A) : list A := foldr insert_by [] l.
End Sort.

(** ** The structured block: JSON values as [json.loads] returns them *)

Inductive json : Type :=
  | JNull
  | JBool (b : bool)
  | JInt (z : Z)
  | JFloat (q : Q)
  | JStr (s : string)
  | JList (l : list json)
  | JObj (m : gmap string json).

(** [obj.get(key, default)]; only a [dict] has the method. *)
Definition py_get (obj : json) (key : string) (default : json) : result json :=
  match obj with
  | JObj m => Ok (match m !! key with Some v => v | None => default end)
  | _ => Raise AttributeError
  end.

(** [x if isinstance(x, list) else [x]] *)
Definition as_list (x : json) : list json :=
  match x with
  | JList l => l
  | _ => [x]
  end.

(** [x[:4]]: a string and a list can be sliced. *)
Definition slice4 (x : json) : result json :=
  match x with
  | JStr s => Ok (JStr (String.substring 0 4 s))
  | JList l => Ok (JList (take 4 l))
  | _ => Raise TypeError
  end.

(** ** The document tree, as the code observes it *)

(** An [img] element: [img.get('src')]. *)
Record ImgTag := { src : option string }.

(** A cast card or a principal-credit link: [node.find('img')]. *)
Record CardNode := { find_img : option ImgTag }.

(** The element [.ipc-metadata-list-summary-item__t] of a search result:
    [.get('href')] and [.text]. *)
Record TitleElem := { href : option string; text : string }.

(** An element of [soup.select('.ipc-metadata-list-summary-item')]; each
    field is the text of the element that [select_one] finds, if any. *)
Record SummaryItem := {
  item_t : option TitleElem;
  item_year : option string;
  item_subtext : option string
}.

(** An element of [soup.select('div.episode-item-wrapper')]. *)
Record EpisodeNode := {
  ipc_title_text : option string;
  ipc_html_content_inner_div : option string;
  episode_air_date : option string;
  ipc_rating_star_imdb : option string
}.

(** [soup.find('script', {'type': 'application/ld+json'})]: the element is
    represented by the outcome of [json.loads(script.string)]. *)
Record ScriptTag := { json_loads_string : result json }.

Record Soup := {
  summary_items : list SummaryItem;
  ld_json : option ScriptTag;
  plot_xl : option string;
  title_cast_items : list CardNode;
  principal_credit_links : list CardNode;
  episodes_header_span : option string;
  episode_item_wrappers : list EpisodeNode;
  biography : option string;
  hero_image : option ImgTag
}.

(** ** The records returned

    Each [dict] that the class returns is a record.  A key that is not an
    identifier is written with underscores: ['plot outline'] is
    [plot_outline], ['full-size cover url'] is [full_size_cover_url],
    ['number of seasons'] is [number_of_seasons] and ['original air date']
    is [original_air_date].  A field that is passed through from the
    structured block holds a [json]; Python's [None] is [JNull] there. *)

Module MovieCandidate.
Record t := { movieID : string; title : string; year : string; url : string; match_score : Q }.
End MovieCandidate.

Module TvCandidate.
Record t := { seriesID : string; title : string; year : string; url : string }.
End TvCandidate.

Module PersonCandidate.
Record t := { personID : string; name : string; profession : string; url : string; match_score : Q }.
End PersonCandidate.

Module PersonRef.
Record t := { name : json; image : option string }.
End PersonRef.

Module Movie.
Record t := {
    title : json;
    plot_outline : json;
    full_size_cover_url : json;
    rating : json;
    directors : list PersonRef.t;
    cast : list PersonRef.t;
    year : json;
    genres : json
  }.
End Movie.

Module Show.
Record t := {
    title : json;
    plot_outline : json;
    full_size_cover_url : json;
    rating : json;
    creators : list PersonRef.t;
    cast : list PersonRef.t;
    year : json;
    genres : json;
    number_of_seasons : Z
  }.
End Show.

Module Episode.
Record t := {
    title : string;
    episode_title : string;
    episode_number : Z;
    plot : string;
    original_air_date : string;
    rating : option string
  }.
End Episode.

Module Season.
Record t := { season_number : Z; episodes : list Episode.t }.
End Season.

Module Person.
Record t := {
    name : json;
    bio : json;
    headshot : json;
    birth_date : json;
    birth_place : json;
    profession : json
  }.
End Person.

(** ** The class [IMDb] *)

(** [a / b] on two lengths. *)
Definition truediv (a b : nat) : result Q :=
  match b with
  | O => Raise ZeroDivisionError
  | _ => Ok (inject_Z (Z.of_nat a) / inject_Z (Z.of_nat b))%Q
  end.

Definition common_words : gset string := {[ "the"; "a"; "an"; "and"; "&" ]}.

Definition base_url : string := "https://www.imdb.com".

(** A pass of a [for] loop whose body is wrapped in [try ... except]:
    [Ok (Some x)] appends [x], [Ok None] is a [continue], and a raised
    exception is printed and the loop continues. *)
Definition collect {A B : Type} (body : A → result (option B)) (items : list A) : list B :=
  fold_left
    (λ results item,
       match body item with
       | Ok (Some x) => (results ++ [x])%list
       | Ok None => results
       | Raise _ => results
       end)
    items [].

(** The loops [for i, person in enumerate(people)] of [get_movie] and
    [get_show], which pair the [i]-th person with the image of the [i]-th
    node. *)
Fixpoint with_images (nodes : list CardNode) (i : nat) (people : list json)
  : result (list PersonRef.t) :=
  match people with
  | [] => Ok []
  | person :: people' =>
      let image_url :=
        match nodes !! i with
        | Some node =>
            match find_img node with
            | Some img => src img
            | None => None
            end
        | None => None
        end in
      name ← py_get person "name" (JStr "");
      others ← with_images nodes (S i) people';
      Ok ({| PersonRef.name := name; PersonRef.image := image_url |} :: others)
  end.

Definition text_or_empty (elem : option string) : string :=
  match elem with
  | Some t => t
  | None => ""
  end.

Section IMDb.

Variable lower : string → string.
Variable isspace : ascii → bool.

Definition _match_score (query title : string) : result Q :=
  let query := lower query in
  let title := lower title in
  if decide (query = title) then Ok 100%Q
  else
    let query_words : gset string :=
      list_to_set (filter (λ word, word ∉ common_words) (split isspace query)) in
    let title_words : gset string :=
      list_to_set (filter (λ word, word ∉ common_words) (split isspace title)) in
    let matching_words := query_words ∩ title_words in
    let total_query_words := size query_words in
    if decide (matching_words = ∅) then Ok 0%Q
    else
      ratio ← truediv (size matching_words) total_query_words;
      let match_percentage := (ratio * 100)%Q in
      let match_percentage :=
        if forallb (λ word, contains word title) (split isspace query)
        then (match_percentage + 20)%Q
        else match_percentage in
      Ok match_percentage.

Definition search_movie_item (query : string) (item : SummaryItem)
  : result (option MovieCandidate.t) :=
  match item_t item with
  | None => Ok None
  | Some title_elem =>
      let link := text_or_empty (href title_elem) in
      match re_search_digits "/title/tt" "/" link with
      | None => Ok None
      | Some digits =>
          let title := text title_elem in
          match_score ← _match_score query title;
          if Qle_bool 70 match_score then
            let year := text_or_empty (item_year item) in
            Ok (Some {| MovieCandidate.movieID := "tt" ++ digits;
                        MovieCandidate.title := title;
                        MovieCandidate.year := year;
                        MovieCandidate.url := base_url ++ link;
                        MovieCandidate.match_score := match_score |})
          else Ok None
      end
  end.

Definition search_movie (query : string) (soup : Soup) : option (list MovieCandidate.t) :=
  let results := collect (search_movie_item query) (summary_items soup) in
  let results := sort_by MovieCandidate.match_score (λ a b, Qle_bool b a) results in
  match results with
  | [] => None
  | _ => Some (take 5 results)
  end.

Definition search_tv_item (item : SummaryItem) : result (option TvCandidate.t) :=
  match item_t item with
  | None => Ok None
  | Some title_elem =>
      let link := text_or_empty (href title_elem) in
      match re_search_digits "/title/tt" "/" link with
      | None => Ok None
      | Some digits =>
          let year := text_or_empty (item_year item) in
          Ok (Some {| TvCandidate.seriesID := "tt" ++ digits;
                      TvCandidate.title := text title_elem;
                      TvCandidate.year := year;
                      TvCandidate.url := base_url ++ link |})
      end
  end.

Definition search_tv (query : string) (soup : Soup) : list TvCandidate.t :=
  collect search_tv_item (summary_items soup).

Definition search_person_item (name : string) (item : SummaryItem)
  : result (option PersonCandidate.t) :=
  match item_t item with
  | None => Ok None
  | Some title_elem =>
      let link := text_or_empty (href title_elem) in
      match re_search_digits "/name/nm" "/" link with
      | None => Ok None
      | Some digits =>
          let name_text := text title_elem in
          match_score ← _match_score name name_text;
          if Qle_bool 70 match_score then
            let profession := text_or_empty (item_subtext item) in
            Ok (Some {| PersonCandidate.personID := "nm" ++ digits;
                        PersonCandidate.name := name_text;
                        PersonCandidate.profession := profession;
                        PersonCandidate.url := base_url ++ link;
                        PersonCandidate.match_score := match_score |})
          else Ok None
      end
  end.

Definition search_person (name : string) (soup : Soup) : option (list PersonCandidate.t) :=
  let results := collect (search_person_item name) (summary_items soup) in
  let results := sort_by PersonCandidate.match_score (λ a b, Qle_bool b a) results in
  match results with
  | [] => None
  | _ => Some (take 5 results)
  end.

(** The body of the [try] of [get_movie]. *)
Definition get_movie_try (soup : Soup) (script : ScriptTag) : result Movie.t :=
  data ← json_loads_string script;
  let long_plot_elem := plot_xl soup in
  plot ← match long_plot_elem with
         | Some t =>
             match strip isspace t with
             | EmptyString => py_get data "description" (JStr "")
             | stripped => Ok (JStr stripped)
             end
         | None => py_get data "description" (JStr "")
         end;
  let cast_nodes := title_cast_items soup in
  actors ← py_get data "actor" (JList []);
  let actors := as_list actors in
  cast_with_images ← with_images cast_nodes 0 (take 5 actors);
  let director_nodes := principal_credit_links soup in
  directors ← py_get data "director" (JList []);
  let directors := as_list directors in
  director_with_images ← with_images director_nodes 0 directors;
  title ← py_get data "name" (JStr "");
  cover ← py_get data "image" (JStr "");
  aggregate ← py_get data "aggregateRating" (JObj ∅);
  rating ← py_get aggregate "ratingValue" JNull;
  published ← py_get data "datePublished" (JStr "");
  year ← slice4 published;
  genres ← py_get data "genre" (JList []);
  Ok {| Movie.title := title;
        Movie.plot_outline := plot;
        Movie.full_size_cover_url := cover;
        Movie.rating := rating;
        Movie.directors := director_with_images;
        Movie.cast := cast_with_images;
        Movie.year := year;
        Movie.genres := genres |}.

Definition get_movie (soup : Soup) : option Movie.t :=
  match ld_json soup with
  | None => None
  | Some script =>
      match get_movie_try soup script with
      | Ok movie => Some movie
      | Raise _ => None
      end
  end.

(** The body of the [try] of [get_show]. *)
Definition get_show_try (soup : Soup) (script : ScriptTag) : result Show.t :=
  data ← json_loads_string script;
  let long_plot_elem := plot_xl soup in
  plot ← match long_plot_elem with
         | Some t => Ok (JStr (strip isspace t))
         | None => py_get data "description" (JStr "")
         end;
  let season_count_elem := episodes_header_span soup in
  num_seasons ← match season_count_elem with
                | Some t =>
                    match re_search_digits "" "" t with
                    | Some digits => int digits
                    | None => Raise AttributeError
                    end
                | None => Ok 0%Z
                end;
  let cast_nodes := title_cast_items soup in
  actors ← py_get data "actor" (JList []);
  let actors := as_list actors in
  cast_with_images ← with_images cast_nodes 0 (take 10 actors);
  let creator_nodes := principal_credit_links soup in
  creators ← py_get data "creator" (JList []);
  let creators := as_list creators in
  creator_with_images ← with_images creator_nodes 0 creators;
  title ← py_get data "name" (JStr "");
  cover ← py_get data "image" (JStr "");
  aggregate ← py_get data "aggregateRating" (JObj ∅);
  rating ← py_get aggregate "ratingValue" JNull;
  published ← py_get data "datePublished" (JStr "");
  year ← slice4 published;
  genres ← py_get data "genre" (JList []);
  Ok {| Show.title := title;
        Show.plot_outline := plot;
        Show.full_size_cover_url := cover;
        Show.rating := rating;
        Show.creators := creator_with_images;
        Show.cast := cast_with_images;
        Show.year := year;
        Show.genres := genres;
        Show.number_of_seasons := num_seasons |}.

Definition get_show (soup : Soup) : option Show.t :=
  match ld_json soup with
  | None => None
  | Some script =>
      match get_show_try soup script with
      | Ok show => Some show
      | Raise _ => None
      end
  end.

(** The body of the [try] in the loop of [get_season]. *)
Definition get_season_node (node : EpisodeNode) : result (option Episode.t) :=
  match ipc_title_text node with
  | None => Ok None
  | Some t =>
      let title_text := strip isspace t in
      let ep_parts := split_sep bullet title_text in
      '(ep_num, ep_title) ←
        match ep_parts with
        | part0 :: part1 :: _ =>
            ep_num ← match re_search_digits "Ep" "" part0 with
                     | Some digits => int digits
                     | None => Ok 0%Z
                     end;
            Ok (ep_num, strip isspace part1)
        | _ => Ok (0%Z, title_text)
        end;
      let plot := match ipc_html_content_inner_div node with
                  | Some p => strip isspace p
                  | None => ""
                  end in
      let air_date := match episode_air_date node with
                      | Some d => strip isspace d
                      | None => ""
                      end in
      rating ← match ipc_rating_star_imdb node with
               | Some r =>
                   match split isspace r with
                   | first :: _ => Ok (Some first)
                   | [] => Raise IndexError
                   end
               | None => Ok None
               end;
      Ok (Some {| Episode.title := ep_title;
                  Episode.episode_title := ep_title;
                  Episode.episode_number := ep_num;
                  Episode.plot := plot;
                  Episode.original_air_date := air_date;
                  Episode.rating := rating |})
  end.

Definition get_season (soup : Soup) (season_number : Z) : Season.t :=
  let episode_nodes := episode_item_wrappers soup in
  let episodes := collect get_season_node episode_nodes in
  {| Season.season_number := season_number;
     Season.episodes := sort_by Episode.episode_number Z.leb episodes |}.

(** The body of the [try] of [get_person]. *)
Definition get_person_try (soup : Soup) (script : ScriptTag) : result Person.t :=
  data ← json_loads_string script;
  bio ← match biography soup with
        | Some t => Ok (JStr (strip isspace t))
        | None => py_get data "description" (JStr "")
        end;
  headshot ← match hero_image soup with
             | Some img => Ok (match src img with Some u => JStr u | None => JNull end)
             | None => py_get data "image" (JStr "")
             end;
  name ← py_get data "name" (JStr "");
  birth_date ← py_get data "birthDate" (JStr "");
  birth_place ← py_get data "birthPlace" (JStr "");
  profession ← py_get data "jobTitle" (JStr "");
  Ok {| Person.name := name;
        Person.bio := bio;
        Person.headshot := headshot;
        Person.birth_date := birth_date;
        Person.birth_place := birth_place;
        Person.profession := profession |}.

Definition get_person (soup : Soup) : option Person.t :=
  match ld_json soup with
  | None => None
  | Some script =>
      match get_person_try soup script with
      | Ok person => Some person
      | Raise _ => None
      end
  end.
End IMDb.

(** * The notions of the specification

    The definitions of this part do not come from the source: they name
    what the specification speaks of (the candidates of a document, a
    ranked selection, the people that a block lists), so that the
    statements about the functions of the source can be read against it. *)

(** What a pass of [collect] appends for an item, if anything. *)
Definition appended {A B : Type} (body : A → result (option B)) (item : A) : option B :=
  match body item with
  | Ok (Some x) => Some x
  | Ok None | Raise _ => None
  end.

(** Two keys are tied when each may precede the other. *)
Definition tied {K : Type} (precedes : K → K → bool) (a b : K) : Prop :=
  precedes a b = true ∧ precedes b a = true.

Definition in_order {A K : Type} (key : A → K) (precedes : K → K → bool) (x y : A) : Prop :=
  precedes (key x) (key y) = true.

#[local] Instance Qle_decision (x y : Q) : Decision (x <= y)%Q.
Proof.
  destruct (Qlt_le_dec y x) as [H|H]; [right | left; exact H].
  by apply Qlt_not_le.
Defined.

#[local] Instance Qeq_decision (x y : Q) : Decision (x == y)%Q := Qeq_dec x y.

(** The order of a ranked list: by score, descending. *)
Definition by_score_desc {A : Type} (score : A → Q) (x y : A) : Prop :=
  (score y <= score x)%Q.

(** What section 4.2 of the specification asks of a search with the
    acceptance threshold, given the candidates of the document in document
    order: the candidates of score 70 or more, ranked by score, descending,
    candidates of equal score in document order, the first five of them;
    [None], which stands for "no results", when there is none. *)
Definition selected {A : Type} (score : A → Q) (candidates : list A)
    (out : option (list A)) : Prop :=
  let passing := filter (λ c, (70 <= score c)%Q) candidates in
  match out with
  | None => passing = []
  | Some results =>
      results ≠ [] ∧
      ∃ ranked,
        ranked ≡ₚ passing ∧
        StronglySorted (by_score_desc score) ranked ∧
        (∀ s, filter (λ c, (score c == s)%Q) ranked
              = filter (λ c, (score c == s)%Q) passing) ∧
        results = take 5 ranked
  end.

(** The title element and the digits of the identifier of a search result,
    when both can be extracted. *)
Definition identified (before : string) (item : SummaryItem) : option (TitleElem * string) :=
  match item_t item with
  | None => None
  | Some title_elem =>
      match re_search_digits before "/" (text_or_empty (href title_elem)) with
      | None => None
      | Some digits => Some (title_elem, digits)
      end
  end.

(** The candidate of a TV search for a search result. *)
Definition tv_candidate (item : SummaryItem) : option TvCandidate.t :=
  match identified "/title/tt" item with
  | None => None
  | Some (title_elem, digits) =>
      Some {| TvCandidate.seriesID := "tt" ++ digits;
              TvCandidate.title := text title_elem;
              TvCandidate.year := text_or_empty (item_year item);
              TvCandidate.url := base_url ++ text_or_empty (href title_elem) |}
  end.

(** The people that the structured block of a page lists under [role]: the
    value of the key, a single object counting as a list of one. *)
Definition listed (role : string) (soup : Soup) : list json :=
  match ld_json soup with
  | Some script =>
      match json_loads_string script with
      | Ok (JObj m) =>
          match m !! role with
          | Some people => as_list people
          | None => []
          end
      | _ => []
      end
  | None => []
  end.

(** The description of the structured block of a page. *)
Definition description (soup : Soup) : option json :=
  match ld_json soup with
  | Some script =>
      match json_loads_string script with
      | Ok (JObj m) => Some (default (JStr "") (m !! "description"))
      | _ => None
      end
  | None => None
  end.

Section Candidates.
Variable lower : string → string.
Variable isspace : ascii → bool.

(** The words of a string that count: [split] without the common words. *)
Definition kept_words (s : string) : gset string :=
  list_to_set (filter (λ word, word ∉ common_words) (split isspace s)).

(** The candidate of a movie search for a search result, with its match
    score, before any filter policy. *)
Definition movie_candidate (query : string) (item : SummaryItem) : option MovieCandidate.t :=
  match identified "/title/tt" item with
  | None => None
  | Some (title_elem, digits) =>
      match _match_score lower isspace query (text title_elem) with
      | Raise _ => None
      | Ok score =>
          Some {| MovieCandidate.movieID := "tt" ++ digits;
                  MovieCandidate.title := text title_elem;
                  MovieCandidate.year := text_or_empty (item_year item);
                  MovieCandidate.url := base_url ++ text_or_empty (href title_elem);
                  MovieCandidate.match_score := score |}
      end
  end.

(** The candidate of a person search for a search result. *)
Definition person_candidate (name : string) (item : SummaryItem) : option PersonCandidate.t :=
  match identified "/name/nm" item with
  | None => None
  | Some (title_elem, digits) =>
      match _match_score lower isspace name (text title_elem) with
      | Raise _ => None
      | Ok score =>
          Some {| PersonCandidate.personID := "nm" ++ digits;
                  PersonCandidate.name := text title_elem;
                  PersonCandidate.profession := text_or_empty (item_subtext item);
                  PersonCandidate.url := base_url ++ text_or_empty (href title_elem);
                  PersonCandidate.match_score := score |}
      end
  end.

(** The episodes of the episode cards of a page, in document order. *)
Definition emitted (soup : Soup) : list Episode.t :=
  collect (get_season_node isspace) (episode_item_wrappers soup).
End Candidates.

(** The plot of a detail record as the specification resolves it: the
    trimmed text of the long plot span when the span is there and its
    trimmed text is not empty, the description of the block otherwise. *)
Definition resolved_plot (isspace : ascii → bool) (soup : Soup) : option json :=
  match plot_xl soup with
  | Some t =>
      match strip isspace t with
      | EmptyString => description soup
      | stripped => Some (JStr stripped)
      end
  | None => description soup
  end.

(** * Concrete pages *)

(** A page on which every selector finds nothing. *)
Definition blank : Soup :=
  {| summary_items := []; ld_json := None; plot_xl := None;
     title_cast_items := []; principal_credit_links := [];
     episodes_header_span := None; episode_item_wrappers := [];
     biography := None; hero_image := None |}.

(** A structured block that loads as the object with the [fields]. *)
Definition block (fields : list (string * json)) : ScriptTag :=
  {| json_loads_string := Ok (JObj (list_to_map fields)) |}.

(** A title page: its structured block, long plot span and season header. *)
Definition title_page (script : option ScriptTag) (long_plot header : option string) : Soup :=
  {| summary_items := []; ld_json := script; plot_xl := long_plot;
     title_cast_items := []; principal_credit_links := [];
     episodes_header_span := header; episode_item_wrappers := [];
     biography := None; hero_image := None |}.

(** A page of search results. *)
Definition result_page (items : list SummaryItem) : Soup :=
  {| summary_items := items; ld_json := None; plot_xl := None;
     title_cast_items := []; principal_credit_links := [];
     episodes_header_span := None; episode_item_wrappers := [];
     biography := None; hero_image := None |}.

(** A page of episode cards, without a structured block. *)
Definition episodes_page (nodes : list EpisodeNode) : Soup :=
  {| summary_items := []; ld_json := None; plot_xl := None;
     title_cast_items := []; principal_credit_links := [];
     episodes_header_span := None; episode_item_wrappers := nodes;
     biography := None; hero_image := None |}.

Definition title_result (link title : string) : SummaryItem :=
  {| item_t := Some {| href := Some link; text := title |};
     item_year := Some "1999"; item_subtext := None |}.

Definition episode_card (title : string) : EpisodeNode :=
  {| ipc_title_text := Some title; ipc_html_content_inner_div := None;
     episode_air_date := None; ipc_rating_star_imdb := None |}.

Definition named (name : string) : json := JObj {[ "name" := JStr name ]}.

Definition seven_actors : json :=
  JList [named "a1"; named "a2"; named "a3"; named "a4"; named "a5"; named "a6"; named "a7"].

Definition the_show : ScriptTag :=
  block [("name", JStr "Show"); ("description", JStr "A short description.");
         ("actor", seven_actors); ("creator", named "c1")].

Definition matrix_results : Soup :=
  result_page [title_result "/title/tt0000001/" "Something Else";
               title_result "/title/tt0000002/" "Matrix";
               title_result "/title/tt0000003/" "The Matrix";
               title_result "/title/bad/" "The Matrix";
               title_result "/title/tt0000004/" "The Matrix Reloaded"].

Definition season_3_1_2 : Soup :=
  episodes_page [episode_card ("S1, Ep3 " ++ bullet ++ " Three");
                 episode_card ("S1, Ep1 " ++ bullet ++ " One");
                 episode_card ("S1, Ep2 " ++ bullet ++ " Two")].


(** * Further notions

    Names for what the further properties speak of. *)


(** The TV candidate that carries the fields of a movie candidate. *)
Definition tv_of_movie (c : MovieCandidate.t) : TvCandidate.t :=
  {| TvCandidate.seriesID := MovieCandidate.movieID c;
     TvCandidate.title := MovieCandidate.title c;
     TvCandidate.year := MovieCandidate.year c;
     TvCandidate.url := MovieCandidate.url c |}.

(** The object that the structured block of a page loads as, if it does. *)
Definition block_object (soup : Soup) : option (gmap string json) :=
  match ld_json soup with
  | Some script =>
      match json_loads_string script with
      | Ok (JObj m) => Some m
      | _ => None
      end
  | None => None
  end.

Definition is_object (j : json) : Prop :=
  match j with
  | JObj _ => True
  | _ => False
  end.

(** The values that [x[:4]] accepts. *)
Definition sliceable (j : json) : Prop :=
  match j with
  | JStr _ | JList _ => True
  | _ => False
  end.

(** The value of a key of an object, or the default of the key. *)
Definition field (m : gmap string json) (key : string) (default : json) : json :=
  match m !! key with
  | Some v => v
  | None => default
  end.

(** [person.get('name', '')] for a person that is an object. *)
Definition name_of (person : json) : json :=
  match person with
  | JObj m => field m "name" (JStr "")
  | _ => JNull
  end.

(** The image of the [i]-th node: the [src] of its first [img]. *)
Definition image_at (nodes : list CardNode) (i : nat) : option string :=
  match nodes !! i with
  | Some node =>
      match find_img node with
      | Some img => src img
      | None => None
      end
  | None => None
  end.

(** The people of a list, each with the image of the node of its rank. *)
Definition credited (nodes : list CardNode) (people : list json) : list PersonRef.t :=
  imap (λ i person, {| PersonRef.name := name_of person;
                       PersonRef.image := image_at nodes i |}) people.

(** The season header of a show page can be read: there is none, or its
    text holds a run of digits and the first run has 4300 digits at most. *)
Definition header_readable (soup : Soup) : Prop :=
  match episodes_header_span soup with
  | None => True
  | Some t =>
      ∃ digits, re_search_digits "" "" t = Some digits
                ∧ (String.length digits ≤ int_max_str_digits)%nat
  end.

(** The conditions on the object of the block under which [get_movie]
    and [get_show] build a record; [cap] is 5 for a movie and 10 for a
    show, [authors] is ["director"] or ["creator"]. *)
Definition block_usable (cap : nat) (authors : string) (m : gmap string json) : Prop :=
  Forall is_object (take cap (as_list (field m "actor" (JList []))))
  ∧ Forall is_object (as_list (field m authors (JList [])))
  ∧ is_object (field m "aggregateRating" (JObj ∅))
  ∧ sliceable (field m "datePublished" (JStr "")).

(** A string without a whitespace character. *)
Definition spaceless (isspace : ascii → bool) (s : string) : Prop :=
  Forall (λ c, isspace c = false) (list_ascii_of_string s).

(** A string that does not start with whitespace. *)
Definition no_lead (isspace : ascii → bool) (s : string) : Prop :=
  match s with
  | EmptyString => True
  | String c _ => isspace c = false
  end.

(** [lstrip] and [rstrip] leave the string as it is. *)
Definition trimmed (isspace : ascii → bool) (s : string) : Prop :=
  lstrip isspace s = s ∧ rstrip isspace s = s.

(** [sep.join(parts)] *)
Fixpoint join (sep : string) (parts : list string) : string :=
  match parts with
  | [] => ""
  | [part] => part
  | part :: parts' => part ++ sep ++ join sep parts'
  end.

Section Passing.
Variable lower : string → string.
Variable isspace : ascii → bool.

(** The candidates of a page that reach the threshold of movie search and
    of person search, in document order. *)
Definition passing_movies (query : string) (soup : Soup) : list MovieCandidate.t :=
  filter (λ c, (70 <= MovieCandidate.match_score c)%Q)
    (omap (movie_candidate lower isspace query) (summary_items soup)).

Definition passing_persons (name : string) (soup : Soup) : list PersonCandidate.t :=
  filter (λ c, (70 <= PersonCandidate.match_score c)%Q)
    (omap (person_candidate lower isspace name) (summary_items soup)).
End Passing.

(** ** Further concrete pages *)

Definition the_movie_fields : list (string * json) :=
  [("name", JStr "The Matrix");
   ("datePublished", JStr "1999-03-31");
   ("aggregateRating", JObj {[ "ratingValue" := JFloat (87 # 10) ]});
   ("actor", JList [named "Keanu Reeves"; named "Carrie-Anne Moss"]);
   ("director", named "Lana Wachowski")].

(** A movie page with one cast card, which has an image, for two actors. *)
Definition movie_page : Soup :=
  {| summary_items := []; ld_json := Some (block the_movie_fields); plot_xl := None;
     title_cast_items := [ {| find_img := Some {| src := Some "keanu.jpg" |} |} ];
     principal_credit_links := [];
     episodes_header_span := None; episode_item_wrappers := [];
     biography := None; hero_image := None |}.

Definition the_person_fields : list (string * json) :=
  [("name", JStr "Keanu Reeves"); ("description", JStr "Actor.")].

(** A person page with a blank biography and a hero image without [src]. *)
Definition person_page : Soup :=
  {| summary_items := []; ld_json := Some (block the_person_fields); plot_xl := None;
     title_cast_items := []; principal_credit_links := [];
     episodes_header_span := None; episode_item_wrappers := [];
     biography := Some "  "; hero_image := Some {| src := None |} |}.

(** An episode card whose rating element holds only spaces. *)
Definition blank_rating_card : EpisodeNode :=
  {| ipc_title_text := Some ("S1, Ep2 " ++ bullet ++ " Two");
     ipc_html_content_inner_div := None;
     episode_air_date := None; ipc_rating_star_imdb := Some "  " |}.

Definition rated_card : EpisodeNode :=
  {| ipc_title_text := Some ("  S1, Ep1 " ++ bullet ++ " One  ");
     ipc_html_content_inner_div := Some " The first one. ";
     episode_air_date := Some "Mon, Jan 1, 2024";
     ipc_rating_star_imdb := Some " 8.1/10 (2K) Rate" |}.

(** * Properties *)

(** ** The monad of exceptions *)

Lemma bind_Ok {A B : Type} (m : result A) (f : A → result B) (b : B) :
  m ≫= f = Ok b → ∃ a, m = Ok a ∧ f a = Ok b.
Proof. destruct m as [a|e]; [eauto | discriminate]. Qed.

Ltac bind_inv H :=
  let x := fresh "x" in
  let Hx := fresh "H" x in
  apply bind_Ok in H; destruct H as (x & Hx & H).

(** ** A loop that collects is a partial map over the items *)

Lemma collect_omap {A B : Type} (body : A → result (option B)) (items : list A) :
  collect body items = omap (appended body) items.
Proof.
  unfold collect.
  enough (G : ∀ acc, fold_left
            (λ results item,
               match body item with
               | Ok (Some x) => (results ++ [x])%list
               | Ok None => results
               | Raise _ => results
               end) items acc = (acc ++ omap (appended body) items)%list)
    by apply (G []).
  induction items as [|item items IH]; intros acc; simpl.
  - by rewrite app_nil_r.
  - rewrite IH. unfold appended.
    destruct (body item) as [[x|]|e]; [|done..].
    by rewrite <- app_assoc.
Qed.

Lemma omap_guard {A B : Type} (P : B → Prop) `{!∀ b, Decision (P b)}
    (f g : A → option B) (l : list A) :
  (∀ x, f x = match g x with
              | Some b => if decide (P b) then Some b else None
              | None => None
              end) →
  omap f l = filter P (omap g l).
Proof.
  intros Hfg. induction l as [|x l IH]; simpl; [done|].
  rewrite Hfg. destruct (g x) as [b|]; [|exact IH].
  rewrite filter_cons. destruct (decide (P b)); [f_equal|]; exact IH.
Qed.

Lemma length_omap {A B : Type} (f : A → option B) (l : list A) :
  length (omap f l) = length (filter (λ x, is_Some (f x)) l).
Proof.
  induction l as [|x l IH]; [done|].
  rewrite filter_cons. cbn [omap list_omap].
  destruct (f x) as [b|].
  - rewrite decide_True by eauto. cbn [length]. by rewrite IH.
  - rewrite decide_False by (intros [? ?]; done). exact IH.
Qed.

(** ** The stable sort *)

Lemma StronglySorted_weaken {A : Type} (R R' : A → A → Prop) (l : list A) :
  (∀ x y, R x y → R' x y) → StronglySorted R l → StronglySorted R' l.
Proof.
  intros HR. induction 1 as [|x l Hl IH Hx]; constructor; [exact IH|].
  eapply Forall_impl; [exact Hx | auto].
Qed.

Section SortFacts.
Context {A K : Type} (key : A → K) (precedes : K → K → bool).

Hypothesis precedes_total : ∀ a b, precedes a b = true ∨ precedes b a = true.
Hypothesis precedes_trans :
  ∀ a b c, precedes a b = true → precedes b c = true → precedes a c = true.

Lemma insert_by_perm (x : A) (l : list A) : insert_by key precedes x l ≡ₚ x :: l.
Proof.
  induction l as [|y l IH]; simpl; [done|].
  destruct (precedes (key x) (key y)); [done|].
  rewrite IH. apply Permutation_swap.
Qed.

Lemma sort_by_perm (l : list A) : sort_by key precedes l ≡ₚ l.
Proof.
  induction l as [|x l IH]; simpl; [done|].
  unfold sort_by in *. simpl. rewrite insert_by_perm. by rewrite IH.
Qed.

Lemma insert_by_sorted (x : A) (l : list A) :
  StronglySorted (in_order key precedes) l →
  StronglySorted (in_order key precedes) (insert_by key precedes x l).
Proof.
  induction 1 as [|y l Hl IH Hy]; simpl.
  - repeat constructor.
  - destruct (precedes (key x) (key y)) eqn:Hxy.
    + constructor; [by constructor|].
      constructor; [exact Hxy|].
      eapply Forall_impl; [exact Hy|].
      intros z Hz. unfold in_order in *. eauto.
    + constructor; [exact IH|].
      rewrite insert_by_perm. constructor; [|exact Hy].
      unfold in_order. destruct (precedes_total (key x) (key y)); congruence.
Qed.

Lemma sort_by_sorted (l : list A) :
  StronglySorted (in_order key precedes) (sort_by key precedes l).
Proof.
  induction l as [|x l IH]; [constructor|].
  apply insert_by_sorted, IH.
Qed.

(** Stability: the elements whose keys are tied with [k] keep the order
    that they had in [l]. *)
Lemma insert_by_stable (k : K) (x : A) (l : list A) :
  filter (λ a, tied precedes k (key a)) (insert_by key precedes x l)
  = filter (λ a, tied precedes k (key a)) (x :: l).
Proof.
  induction l as [|y l IH]; simpl; [done|].
  destruct (precedes (key x) (key y)) eqn:Hxy; [done|].
  rewrite filter_cons, IH, !filter_cons.
  destruct (decide (tied precedes k (key y))) as [[Hy1 Hy2]|Hy]; [|done].
  destruct (decide (tied precedes k (key x))) as [[Hx1 Hx2]|Hx]; [|done].
  rewrite (precedes_trans _ _ _ Hx2 Hy1) in Hxy. discriminate.
Qed.

Lemma sort_by_stable (k : K) (l : list A) :
  filter (λ a, tied precedes k (key a)) (sort_by key precedes l)
  = filter (λ a, tied precedes k (key a)) l.
Proof.
  induction l as [|x l IH]; [done|].
  change (sort_by key precedes (x :: l))
    with (insert_by key precedes x (sort_by key precedes l)).
  rewrite insert_by_stable, !filter_cons, IH. done.
Qed.
End SortFacts.

Lemma Qle_bool_total (a b : Q) : Qle_bool b a = true ∨ Qle_bool a b = true.
Proof.
  rewrite !Qle_bool_iff. destruct (Qlt_le_dec a b); [right | by left].
  by apply Qlt_le_weak.
Qed.

Lemma Qle_bool_trans (a b c : Q) :
  Qle_bool b a = true → Qle_bool c b = true → Qle_bool c a = true.
Proof. rewrite !Qle_bool_iff. intros. by apply Qle_trans with b. Qed.

Lemma Zle_bool_total (a b : Z) : (a <=? b)%Z = true ∨ (b <=? a)%Z = true.
Proof. rewrite !Z.leb_le. lia. Qed.

Lemma Zle_bool_trans (a b c : Z) :
  (a <=? b)%Z = true → (b <=? c)%Z = true → (a <=? c)%Z = true.
Proof. rewrite !Z.leb_le. lia. Qed.

(** Filter, sort by score descending, keep five or answer [None]. *)
Lemma threshold_rank_cap_selected {A : Type} (score : A → Q) (candidates : list A) :
  selected score candidates
    (let results := sort_by score (λ a b, Qle_bool b a)
                      (filter (λ c, (70 <= score c)%Q) candidates) in
     match results with
     | [] => None
     | _ => Some (take 5 results)
     end).
Proof.
  unfold selected. cbv zeta.
  set (passing := filter (λ c, (70 <= score c)%Q) candidates).
  pose proof (sort_by_perm score (λ a b, Qle_bool b a) passing) as Hperm.
  destruct (sort_by score (λ a b : Q, Qle_bool b a) passing) as [|c ranked] eqn:Hsort.
  - by apply Permutation_nil in Hperm.
  - split; [done|]. exists (c :: ranked). split; [exact Hperm|].
    rewrite <- Hsort. split; [|split; [|done]].
    + eapply StronglySorted_weaken;
        [|apply sort_by_sorted; [apply Qle_bool_total | apply Qle_bool_trans]].
      intros x y. unfold in_order, by_score_desc. by rewrite Qle_bool_iff.
    + intros s.
      assert (Htied : ∀ x, (score x == s)%Q ↔ tied (λ a b, Qle_bool b a) s (score x)).
      { intros x. unfold tied. rewrite !Qle_bool_iff. split.
        - intros Hx. rewrite Hx. split; apply Qle_refl.
        - intros [H1 H2]. by apply Qle_antisym. }
      rewrite (list_filter_iff _ _ _ Htied).
      rewrite (list_filter_iff _ _ passing Htied).
      apply sort_by_stable, Qle_bool_trans.
Qed.

(** ** The match scorer *)

Lemma truediv_bounds (a b : nat) :
  (0 < a ≤ b)%nat →
  ∃ ratio, truediv a b = Ok ratio ∧ (0 <= ratio)%Q ∧ (ratio <= 1)%Q.
Proof.
  intros [Ha Hab]. unfold truediv.
  destruct b as [|b']; [lia|].
  eexists; split; [reflexivity|].
  assert (Hb : (0 < inject_Z (Z.of_nat (S b')))%Q)
    by (change 0%Q with (inject_Z 0); rewrite <- Zlt_Qlt; lia).
  split.
  - apply Qle_shift_div_l; [exact Hb|].
    rewrite Qmult_0_l. change 0%Q with (inject_Z 0). rewrite <- Zle_Qle. lia.
  - apply Qle_shift_div_r; [exact Hb|].
    rewrite Qmult_1_l. rewrite <- Zle_Qle. lia.
Qed.

Section MatchingFacts.
Variable lower : string → string.
Variable isspace : ascii → bool.

(** The three ways in which [_match_score] returns. *)
Lemma match_score_cases (query title : string) :
  ∃ score, _match_score lower isspace query title = Ok score ∧
    ((lower query = lower title ∧ score = 100%Q) ∨
     (lower query ≠ lower title ∧
      kept_words isspace (lower query) ∩ kept_words isspace (lower title) = ∅ ∧
      score = 0%Q) ∨
     (lower query ≠ lower title ∧
      kept_words isspace (lower query) ∩ kept_words isspace (lower title) ≠ ∅ ∧
      ∃ ratio, (0 <= ratio)%Q ∧ (ratio <= 1)%Q ∧
        (score = (ratio * 100)%Q ∨ score = (ratio * 100 + 20)%Q))).
Proof.
  unfold _match_score. cbv zeta.
  fold (kept_words isspace (lower query)) (kept_words isspace (lower title)).
  destruct (decide (lower query = lower title)) as [Heq|Hne].
  { eexists; split; [reflexivity|]. by left. }
  destruct (decide (kept_words isspace (lower query)
                    ∩ kept_words isspace (lower title) = ∅)) as [Hempty|Hsome].
  { eexists; split; [reflexivity|]. right; by left. }
  destruct (truediv_bounds
              (size (kept_words isspace (lower query) ∩ kept_words isspace (lower title)))
              (size (kept_words isspace (lower query)))) as (ratio & -> & H0 & H1).
  { split.
    - apply Nat.neq_0_lt_0. intros Hz. apply size_empty_iff in Hz.
      apply Hsome. by apply leibniz_equiv.
    - apply subseteq_size, intersection_subseteq_l. }
  simpl.
  destruct (forallb _ _); eexists; (split; [reflexivity|]);
    right; right; eauto 10.
Qed.

(** C6. For every query and title the match scorer returns a score and
    raises nothing, the division by the number of query words included,
    and the score lies between 0 and 120. *)
Theorem match_score_returns_in_range (query title : string) :
  ∃ score, _match_score lower isspace query title = Ok score
           ∧ (0 <= score)%Q ∧ (score <= 120)%Q.
Proof.
  destruct (match_score_cases query title)
    as (score & Hscore & [(_ & ->) | [(_ & _ & ->) | (_ & _ & ratio & H0 & H1 & [-> | ->])]]);
    eexists; (split; [exact Hscore|]); split; try lra; done.
Qed.

(** C7, as amended. When every word of the case-folded query is a common
    word, the match scorer returns 0 for every title whose case-folded
    text differs from the case-folded query. *)
Theorem stop_word_query_scores_zero (query title : string) :
  (∀ word, word ∈ split isspace (lower query) → word ∈ common_words) →
  lower query ≠ lower title →
  _match_score lower isspace query title = Ok 0%Q.
Proof.
  intros Hstop Hne.
  assert (Hkept : kept_words isspace (lower query) = ∅).
  { unfold kept_words. apply leibniz_equiv, elem_of_equiv_empty. intros word.
    rewrite elem_of_list_to_set, list_elem_of_filter. intros [Hout Hin]. auto. }
  destruct (match_score_cases query title)
    as (score & Hscore & [(Heq & _) | [(_ & _ & ->) | (_ & Hsome & _)]]).
  - done.
  - exact Hscore.
  - exfalso. apply Hsome. rewrite Hkept. apply leibniz_equiv, intersection_empty_l.
Qed.

(** ** The searches *)

Lemma search_movie_collects (query : string) (items : list SummaryItem) :
  collect (search_movie_item lower isspace query) items
  = filter (λ c, (70 <= MovieCandidate.match_score c)%Q)
      (omap (movie_candidate lower isspace query) items).
Proof.
  rewrite collect_omap. apply omap_guard. intros item.
  unfold appended, search_movie_item, movie_candidate, identified.
  destruct (item_t item) as [title_elem|]; [|done].
  destruct (re_search_digits _ _ _) as [digits|]; [|done].
  destruct (_match_score _ _ _ _) as [score|e]; [|done]. simpl.
  destruct (Qle_bool 70 score) eqn:Hle; case_decide as Hdec; simpl in Hdec; try done.
  - apply Qle_bool_iff in Hle. done.
  - apply Qle_bool_iff in Hdec. congruence.
Qed.

Lemma search_person_collects (name : string) (items : list SummaryItem) :
  collect (search_person_item lower isspace name) items
  = filter (λ c, (70 <= PersonCandidate.match_score c)%Q)
      (omap (person_candidate lower isspace name) items).
Proof.
  rewrite collect_omap. apply omap_guard. intros item.
  unfold appended, search_person_item, person_candidate, identified.
  destruct (item_t item) as [title_elem|]; [|done].
  destruct (re_search_digits _ _ _) as [digits|]; [|done].
  destruct (_match_score _ _ _ _) as [score|e]; [|done]. simpl.
  destruct (Qle_bool 70 score) eqn:Hle; case_decide as Hdec; simpl in Hdec; try done.
  - apply Qle_bool_iff in Hle. done.
  - apply Qle_bool_iff in Hdec. congruence.
Qed.

(** A selection is never empty, holds five candidates at most, and each
    of them reaches the threshold. *)
Lemma selected_Some {A : Type} (score : A → Q) (candidates results : list A) :
  selected score candidates (Some results) →
  0 < length results ≤ 5 ∧ Forall (λ c, (70 <= score c)%Q) results.
Proof.
  intros (Hne & ranked & Hperm & _ & _ & ->). split.
  - rewrite length_take. destruct ranked; [done|]. cbn [length]. lia.
  - apply Forall_take. rewrite Hperm. apply Forall_forall.
    intros c Hc. by apply list_elem_of_filter in Hc as [Hc _].
Qed.

(** C1. Movie search and person search keep the candidates whose match
    score is at least 70, rank them by match score, descending, candidates
    of equal score staying in document order, and return the first five of
    them at most; they return [None], and never an empty list, when no
    candidate reaches 70. *)
Theorem search_threshold_rank_cap (query : string) (soup : Soup) :
  selected MovieCandidate.match_score
    (omap (movie_candidate lower isspace query) (summary_items soup))
    (search_movie lower isspace query soup)
  ∧ selected PersonCandidate.match_score
      (omap (person_candidate lower isspace query) (summary_items soup))
      (search_person lower isspace query soup)
  ∧ (∀ results, search_movie lower isspace query soup = Some results →
       0 < length results ≤ 5
       ∧ Forall (λ c, (70 <= MovieCandidate.match_score c)%Q) results)
  ∧ (∀ results, search_person lower isspace query soup = Some results →
       0 < length results ≤ 5
       ∧ Forall (λ c, (70 <= PersonCandidate.match_score c)%Q) results).
Proof.
  assert (Hm := threshold_rank_cap_selected MovieCandidate.match_score
                  (omap (movie_candidate lower isspace query) (summary_items soup))).
  assert (Hp := threshold_rank_cap_selected PersonCandidate.match_score
                  (omap (person_candidate lower isspace query) (summary_items soup))).
  rewrite <- search_movie_collects in Hm. rewrite <- search_person_collects in Hp.
  change (selected MovieCandidate.match_score
            (omap (movie_candidate lower isspace query) (summary_items soup))
            (search_movie lower isspace query soup)) in Hm.
  change (selected PersonCandidate.match_score
            (omap (person_candidate lower isspace query) (summary_items soup))
            (search_person lower isspace query soup)) in Hp.
  split; [exact Hm|]. split; [exact Hp|].
  split; intros results Hres.
  - rewrite Hres in Hm. by apply selected_Some in Hm.
  - rewrite Hres in Hp. by apply selected_Some in Hp.
Qed.

(** C2. TV search returns the candidate of every search result whose title
    element and identifier can be extracted, in document order: nothing is
    dropped for its score, nothing is reordered, the list is not cut, and
    the query plays no part. *)
Theorem search_tv_unfiltered (query : string) (soup : Soup) :
  search_tv query soup = omap tv_candidate (summary_items soup)
  ∧ length (search_tv query soup)
    = length (filter (λ item, is_Some (identified "/title/tt" item)) (summary_items soup))
  ∧ ∀ query', search_tv query' soup = search_tv query soup.
Proof.
  assert (Heq : ∀ q, search_tv q soup = omap tv_candidate (summary_items soup)).
  { intros q. unfold search_tv. rewrite collect_omap. apply list_omap_ext.
    apply Forall2_same_length_lookup_2; [done|].
    intros i item item' Hi Hi'. assert (item' = item) as -> by congruence.
    unfold appended, search_tv_item, tv_candidate, identified.
    destruct (item_t item) as [title_elem|]; [|done].
    destruct (re_search_digits _ _ _) as [digits|]; done. }
  split; [apply Heq|]. split; [|intros q'; by rewrite !Heq].
  rewrite Heq, length_omap. apply (f_equal length), list_filter_iff.
  intros item. unfold tv_candidate.
  destruct (identified "/title/tt" item) as [[title_elem digits]|];
    split; intros [? ?]; eauto; done.
Qed.
End MatchingFacts.

(** ** The detail fetchers *)

Lemma with_images_length (nodes : list CardNode) (people : list json) :
  ∀ i refs, with_images nodes i people = Ok refs → length refs = length people.
Proof.
  induction people as [|person people IH]; intros i refs H; simpl in H.
  - by injection H as <-.
  - bind_inv H. bind_inv H. injection H as <-. simpl. f_equal. eauto.
Qed.

Lemma py_get_listed (soup : Soup) (script : ScriptTag) (data people : json) (role : string) :
  ld_json soup = Some script →
  json_loads_string script = Ok data →
  py_get data role (JList []) = Ok people →
  as_list people = listed role soup.
Proof.
  intros Hs Hd Hp. unfold listed. rewrite Hs, Hd.
  destruct data; try discriminate. simpl in Hp. injection Hp as <-.
  by destruct (m !! role).
Qed.

Lemma py_get_description (soup : Soup) (script : ScriptTag) (data value : json) :
  ld_json soup = Some script →
  json_loads_string script = Ok data →
  py_get data "description" (JStr "") = Ok value →
  description soup = Some value.
Proof.
  intros Hs Hd Hp. unfold description. rewrite Hs, Hd.
  destruct data; try discriminate. simpl in Hp. injection Hp as <-.
  by destruct (m !! "description").
Qed.

Section FetcherFacts.
Variable isspace : ascii → bool.

Lemma get_movie_Some (soup : Soup) (movie : Movie.t) :
  get_movie isspace soup = Some movie →
  ∃ script, ld_json soup = Some script ∧ get_movie_try isspace soup script = Ok movie.
Proof.
  unfold get_movie. destruct (ld_json soup) as [script|]; [|done].
  destruct (get_movie_try isspace soup script) eqn:H; [|done].
  intros [= <-]. eauto.
Qed.

Lemma get_show_Some (soup : Soup) (show : Show.t) :
  get_show isspace soup = Some show →
  ∃ script, ld_json soup = Some script ∧ get_show_try isspace soup script = Ok show.
Proof.
  unfold get_show. destruct (ld_json soup) as [script|]; [|done].
  destruct (get_show_try isspace soup script) eqn:H; [|done].
  intros [= <-]. eauto.
Qed.

(** The plot of a movie record is resolved as the specification says. *)
Lemma get_movie_plot (soup : Soup) (movie : Movie.t) :
  get_movie isspace soup = Some movie →
  resolved_plot isspace soup = Some (Movie.plot_outline movie).
Proof.
  intros (script & Hs & H)%get_movie_Some.
  unfold get_movie_try in H. cbv zeta in H.
  repeat bind_inv H. injection H as <-. cbn [Movie.plot_outline].
  unfold resolved_plot.
  destruct (plot_xl soup) as [t|]; [destruct (strip isspace t)|];
    first [by injection Hx0 as <- | by eapply py_get_description].
Qed.

(** The plot of a show record is the trimmed text of the long plot span
    whenever the span is there, empty or not. *)
Lemma get_show_plot (soup : Soup) (show : Show.t) :
  get_show isspace soup = Some show →
  Some (Show.plot_outline show)
  = match plot_xl soup with
    | Some t => Some (JStr (strip isspace t))
    | None => description soup
    end.
Proof.
  intros (script & Hs & H)%get_show_Some.
  unfold get_show_try in H. cbv zeta in H.
  repeat bind_inv H. injection H as <-. cbn [Show.plot_outline].
  destruct (plot_xl soup) as [t|].
  - by injection Hx0 as <-.
  - symmetry. by eapply py_get_description.
Qed.

(** A season header without an integer makes [get_show] return [None]. *)
Lemma get_show_header_without_integer (soup : Soup) (t : string) :
  episodes_header_span soup = Some t →
  re_search_digits "" "" t = None →
  get_show isspace soup = None.
Proof.
  intros Ht Hnone. unfold get_show, get_show_try.
  destruct (ld_json soup) as [script|]; [|done].
  rewrite Ht, Hnone.
  destruct (json_loads_string script) as [data|]; [|done]. simpl.
  destruct (plot_xl soup); [done|].
  by destruct (py_get data "description" (JStr "")).
Qed.

(** C8. The cast of a movie record is the first five people that the
    structured block lists as actors, hence at most five; the cast of a
    show record is the first ten, hence at most ten; the directors of a
    movie and the creators of a show are as many as the block lists.  With
    seven actors listed, a movie has five and a show has seven. *)
Theorem cast_capped_credits_whole (soup : Soup) :
  (∀ movie, get_movie isspace soup = Some movie →
     length (Movie.cast movie) = 5 `min` length (listed "actor" soup)
     ∧ (length (Movie.cast movie) ≤ 5)%nat
     ∧ length (Movie.directors movie) = length (listed "director" soup))
  ∧ (∀ show, get_show isspace soup = Some show →
       length (Show.cast show) = 10 `min` length (listed "actor" soup)
       ∧ (length (Show.cast show) ≤ 10)%nat
       ∧ length (Show.creators show) = length (listed "creator" soup)).
Proof.
  split.
  - intros movie (script & Hs & H)%get_movie_Some.
    unfold get_movie_try in H. cbv zeta in H.
    repeat bind_inv H. injection H as <-. cbn [Movie.cast Movie.directors].
    repeat match goal with
           | Hw : with_images _ _ _ = Ok _ |- _ => apply with_images_length in Hw
           | Hg : py_get _ ?role (JList []) = Ok _ |- _ =>
               apply (py_get_listed soup script _ _ role Hs) in Hg; [|assumption]
           end.
    rewrite length_take in *. split; [congruence|]. split; [lia | congruence].
  - intros show (script & Hs & H)%get_show_Some.
    unfold get_show_try in H. cbv zeta in H.
    repeat bind_inv H. injection H as <-. cbn [Show.cast Show.creators].
    repeat match goal with
           | Hw : with_images _ _ _ = Ok _ |- _ => apply with_images_length in Hw
           | Hg : py_get _ ?role (JList []) = Ok _ |- _ =>
               apply (py_get_listed soup script _ _ role Hs) in Hg; [|assumption]
           end.
    rewrite length_take in *. split; [congruence|]. split; [lia | congruence].
Qed.

(** C5, as amended. [get_movie], [get_show] and [get_person] return [None]
    when the page has no structured block, and also when the block is there
    and its content does not load; [get_season] does not consult the block:
    its record is determined by the episode cards and the season number. *)
Theorem fetchers_without_block (soup : Soup) :
  (ld_json soup = None →
     get_movie isspace soup = None
     ∧ get_show isspace soup = None
     ∧ get_person isspace soup = None)
  ∧ (∀ script e,
       ld_json soup = Some script → json_loads_string script = Raise e →
       get_movie isspace soup = None
       ∧ get_show isspace soup = None
       ∧ get_person isspace soup = None)
  ∧ (∀ soup' season_number,
       episode_item_wrappers soup' = episode_item_wrappers soup →
       get_season isspace soup' season_number = get_season isspace soup season_number).
Proof.
  split; [|split].
  - intros H. unfold get_movie, get_show, get_person. by rewrite H.
  - intros script e Hs He.
    unfold get_movie, get_show, get_person,
      get_movie_try, get_show_try, get_person_try.
    by rewrite Hs, He.
  - intros soup' n H. unfold get_season. by rewrite H.
Qed.

(** ** The season *)

Lemma get_season_node_titles (node : EpisodeNode) (episode : Episode.t) :
  get_season_node isspace node = Ok (Some episode) →
  Episode.episode_title episode = Episode.title episode.
Proof.
  unfold get_season_node. destruct (ipc_title_text node) as [t|]; [|done].
  cbv zeta. intros H. bind_inv H. destruct x as [ep_num ep_title].
  bind_inv H. by injection H as <-.
Qed.

Lemma get_season_episodes (soup : Soup) (season_number : Z) :
  Season.episodes (get_season isspace soup season_number)
  = sort_by Episode.episode_number Z.leb (emitted isspace soup).
Proof. reflexivity. Qed.

(** C9. The episodes of a season record are the episodes of the episode
    cards, arranged by episode number, ascending; episodes of equal number
    keep their document order. *)
Theorem season_episodes_sorted_stable (soup : Soup) (season_number : Z) :
  let episodes := Season.episodes (get_season isspace soup season_number) in
  episodes ≡ₚ emitted isspace soup
  ∧ StronglySorted
      (λ a b, (Episode.episode_number a ≤ Episode.episode_number b)%Z) episodes
  ∧ ∀ number,
      filter (λ e, Episode.episode_number e = number) episodes
      = filter (λ e, Episode.episode_number e = number) (emitted isspace soup).
Proof.
  cbv zeta. rewrite get_season_episodes. split; [apply sort_by_perm|]. split.
  - eapply StronglySorted_weaken;
      [|apply sort_by_sorted; [apply Zle_bool_total | apply Zle_bool_trans]].
    intros a b. unfold in_order. by rewrite Z.leb_le.
  - intros number.
    assert (Htied : ∀ e, Episode.episode_number e = number
                         ↔ tied Z.leb number (Episode.episode_number e)).
    { intros e. unfold tied. rewrite !Z.leb_le. lia. }
    rewrite (list_filter_iff _ _ _ Htied).
    rewrite (list_filter_iff _ _ (emitted isspace soup) Htied).
    apply sort_by_stable, Zle_bool_trans.
Qed.

(** C10. In every episode of a season record the field [episode_title]
    holds the same value as the field [title]. *)
Theorem episode_title_is_title (soup : Soup) (season_number : Z) :
  Forall (λ e, Episode.episode_title e = Episode.title e)
    (Season.episodes (get_season isspace soup season_number)).
Proof.
  rewrite get_season_episodes, sort_by_perm. unfold emitted.
  rewrite collect_omap. apply Forall_forall. intros e He.
  apply list_elem_of_omap in He as (node & _ & He).
  apply (get_season_node_titles node). unfold appended in He.
  destruct (get_season_node isspace node) as [[e'|]|]; congruence.
Qed.
End FetcherFacts.

(** * The functions on concrete pages *)

Example match_score_exact :
  _match_score ascii_lower ascii_isspace "The Matrix" "the matrix" = Ok 100%Q.
Proof. vm_compute. reflexivity. Qed.

Example match_score_half :
  Qred <$> match _match_score ascii_lower ascii_isspace "matrix reloaded" "The Matrix" with
           | Ok score => Some score
           | Raise _ => None
           end = Some 50%Q.
Proof. vm_compute. reflexivity. Qed.

Example split_sep_bullet :
  split_sep bullet ("S1, Ep3 " ++ bullet ++ " Pilot " ++ bullet ++ "")
  = ["S1, Ep3 "; " Pilot "; ""].
Proof. reflexivity. Qed.

Example re_search_title :
  re_search_digits "/title/tt" "/" "x/title/tt12a/title/tt0133093/?ref" = Some "0133093".
Proof. reflexivity. Qed.

Example search_movie_matrix :
  option_map (map (λ c, (MovieCandidate.movieID c, Qred (MovieCandidate.match_score c))))
    (search_movie ascii_lower ascii_isspace "The Matrix" matrix_results)
  = Some [("tt0000004", 120%Q); ("tt0000002", 100%Q); ("tt0000003", 100%Q)].
Proof. vm_compute. reflexivity. Qed.

Example search_movie_no_results :
  search_movie ascii_lower ascii_isspace "Inception" matrix_results = None.
Proof. vm_compute. reflexivity. Qed.

Example search_tv_matrix :
  map TvCandidate.seriesID (search_tv "Inception" matrix_results)
  = ["tt0000001"; "tt0000002"; "tt0000003"; "tt0000004"].
Proof. vm_compute. reflexivity. Qed.

Example get_season_node_pilot :
  get_season_node ascii_isspace (episode_card ("S1, Ep3 " ++ bullet ++ " Pilot Episode"))
  = Ok (Some {| Episode.title := "Pilot Episode"; Episode.episode_title := "Pilot Episode";
                Episode.episode_number := 3; Episode.plot := "";
                Episode.original_air_date := ""; Episode.rating := None |}).
Proof. vm_compute. reflexivity. Qed.

Example get_season_node_special :
  get_season_node ascii_isspace (episode_card "Special")
  = Ok (Some {| Episode.title := "Special"; Episode.episode_title := "Special";
                Episode.episode_number := 0; Episode.plot := "";
                Episode.original_air_date := ""; Episode.rating := None |}).
Proof. vm_compute. reflexivity. Qed.

Example get_season_3_1_2 :
  map (λ e, (Episode.episode_number e, Episode.title e))
    (Season.episodes (get_season ascii_isspace season_3_1_2 1))
  = [(1, "One"); (2, "Two"); (3, "Three")]%Z.
Proof. vm_compute. reflexivity. Qed.

Example cast_of_seven :
  option_map (λ m, length (Movie.cast m))
    (get_movie ascii_isspace (title_page (Some the_show) None None)) = Some 5
  ∧ option_map (λ s, (length (Show.cast s), length (Show.creators s)))
      (get_show ascii_isspace (title_page (Some the_show) None None)) = Some (7, 1).
Proof. split; vm_compute; reflexivity. Qed.

(** ** The claims on concrete pages *)

(** C1 on the results for "The Matrix". *)
Lemma search_threshold_rank_cap_matrix :
  ∃ results,
    search_movie ascii_lower ascii_isspace "The Matrix" matrix_results = Some results
    ∧ 0 < length results ≤ 5
    ∧ Forall (λ c, (70 <= MovieCandidate.match_score c)%Q) results.
Proof.
  eexists. split; [vm_compute; reflexivity|].
  apply (search_threshold_rank_cap ascii_lower ascii_isspace "The Matrix" matrix_results).
  vm_compute. reflexivity.
Defined.

(** C7 as it is written fails on a title that is the query itself: the
    words of "the a" are common words, and its score against "the a" is
    100. *)
Lemma stop_word_query_exact_title :
  (∀ word, word ∈ split ascii_isspace (ascii_lower "the a") → word ∈ common_words)
  ∧ _match_score ascii_lower ascii_isspace "the a" "the a" = Ok 100%Q
  ∧ ¬ (100 == 0)%Q.
Proof.
  split; [|split; [vm_compute; reflexivity | discriminate]].
  apply Forall_forall. apply (bool_decide_unpack _). vm_compute. exact I.
Qed.

(** C7, as amended, on the query "The A" and the title "the matrix". *)
Lemma stop_word_query_scores_zero_the_a :
  _match_score ascii_lower ascii_isspace "The A" "the matrix" = Ok 0%Q.
Proof.
  apply stop_word_query_scores_zero.
  - apply Forall_forall. apply (bool_decide_unpack _). vm_compute. exact I.
  - vm_compute. discriminate.
Defined.

(** C8 on a block that lists seven actors and one creator. *)
Lemma cast_capped_credits_whole_seven :
  ∃ movie show,
    get_movie ascii_isspace (title_page (Some the_show) None None) = Some movie
    ∧ get_show ascii_isspace (title_page (Some the_show) None None) = Some show
    ∧ length (Movie.cast movie) = 5
    ∧ length (Show.cast show) = 7
    ∧ length (Show.creators show) = 1.
Proof.
  eexists. eexists.
  split; [vm_compute; reflexivity|]. split; [vm_compute; reflexivity|].
  destruct (cast_capped_credits_whole ascii_isspace
              (title_page (Some the_show) None None)) as [Hmovie Hshow].
  split; [|split].
  - eapply eq_trans; [apply Hmovie; vm_compute; reflexivity|]. vm_compute. reflexivity.
  - eapply eq_trans; [apply Hshow; vm_compute; reflexivity|]. vm_compute. reflexivity.
  - eapply eq_trans; [apply Hshow; vm_compute; reflexivity|]. vm_compute. reflexivity.
Defined.

(** C5 on the blank page. *)
Lemma fetchers_without_block_blank :
  get_movie ascii_isspace blank = None
  ∧ get_show ascii_isspace blank = None
  ∧ get_person ascii_isspace blank = None.
Proof. apply (fetchers_without_block ascii_isspace blank). reflexivity. Defined.

(** C5 as it is written fails twice.  A page of episode cards without a
    structured block gets a season record from [get_season]; and a page
    whose structured block is there, but does not load, gets [None] from
    [get_movie]. *)
Lemma season_record_without_block :
  ld_json season_3_1_2 = None
  ∧ Season.season_number (get_season ascii_isspace season_3_1_2 1) = 1%Z
  ∧ length (Season.episodes (get_season ascii_isspace season_3_1_2 1)) = 3
  ∧ is_Some (ld_json (title_page (Some {| json_loads_string := Raise ValueError |}) None None))
  ∧ get_movie ascii_isspace
      (title_page (Some {| json_loads_string := Raise ValueError |}) None None) = None.
Proof. repeat split; try (vm_compute; reflexivity). by eexists. Qed.

(** C3. The header of the show page holds the text "Episodes", without an
    integer: [get_show] returns [None], where the claim has a record with 0
    seasons.  Without the header the record has 0 seasons, and with an
    integer in the header it has that many. *)
Theorem season_count_header_without_integer :
  get_show ascii_isspace (title_page (Some the_show) None (Some "Episodes")) = None
  ∧ option_map Show.number_of_seasons
      (get_show ascii_isspace (title_page (Some the_show) None None)) = Some 0%Z
  ∧ option_map Show.number_of_seasons
      (get_show ascii_isspace (title_page (Some the_show) None (Some "12 episodes, 3 seasons")))
    = Some 12%Z.
Proof. repeat split; vm_compute; reflexivity. Qed.

(** C4. The long plot span of the page is there and holds only spaces:
    [get_movie] falls back to the description of the block, [get_show]
    returns the empty text. *)
Theorem show_plot_empty_span_no_fallback :
  option_map Movie.plot_outline
    (get_movie ascii_isspace (title_page (Some the_show) (Some "   ") None))
  = Some (JStr "A short description.")
  ∧ option_map Show.plot_outline
      (get_show ascii_isspace (title_page (Some the_show) (Some "   ") None))
    = Some (JStr "").
Proof. split; vm_compute; reflexivity. Qed.

(** * Further properties *)

(** ** Strings and patterns *)

Lemma append_cons (c : ascii) (a r : string) : String c a ++ r = String c (a ++ r).
Proof. reflexivity. Qed.

Lemma prefix_app (a s : string) :
  String.prefix a s = true → s = a ++ skip (String.length a) s.
Proof.
  revert s. induction a as [|c a IH]; intros s H; [done|].
  destruct s as [|c' s]; [done|]. simpl in H.
  destruct (Ascii.ascii_dec c c') as [->|]; [|done].
  rewrite append_cons. cbn [String.length skip]. f_equal. by apply IH.
Qed.



Lemma string_app_assoc (a b c : string) : (a ++ b) ++ c = a ++ (b ++ c).
Proof. induction a as [|x a IH]; [done|]. rewrite !append_cons. by f_equal. Qed.




Lemma contains_app_r (needle a s : string) :
  contains needle s = true → contains needle (a ++ s) = true.
Proof.
  intros H. induction a as [|c a IH]; [done|].
  rewrite append_cons. simpl. rewrite IH. apply orb_true_r.
Qed.


Lemma append_nil_r (s : string) : s ++ "" = s.
Proof. induction s as [|c s IH]; [done|]. rewrite append_cons. by f_equal. Qed.

Lemma split_sep_from_cons (sep : string) (s : string) :
  ∀ pending part, ∃ first parts, split_sep_from sep pending part s = first :: parts.
Proof.
  induction s as [|c s IH]; intros pending part; cbn [split_sep_from]; [eauto|].
  destruct pending; [|apply IH]. destruct (String.prefix sep (String c s)); eauto.
Qed.

Lemma join_cons (sep part : string) (parts : list string) :
  parts ≠ [] → join sep (part :: parts) = part ++ sep ++ join sep parts.
Proof. by destruct parts. Qed.

Lemma join_split_sep_from (sep : string) (s : string) :
  sep ≠ "" →
  ∀ pending part, join sep (split_sep_from sep pending part s) = part ++ skip pending s.
Proof.
  intros Hsep. induction s as [|c s IH]; intros pending part.
  - simpl. destruct pending; by rewrite append_nil_r.
  - cbn [split_sep_from]. destruct pending as [|pending]; [|apply IH].
    destruct (String.prefix sep (String c s)) eqn:Hp.
    + destruct (split_sep_from_cons sep s (String.length sep - 1) "") as (x & l & Hl).
      rewrite join_cons by (rewrite Hl; done). rewrite IH. cbn [skip].
      apply prefix_app in Hp. destruct sep as [|c' sep]; [done|].
      cbn [String.length skip] in Hp. cbn [String.length].
      rewrite Nat.sub_succ, Nat.sub_0_r. change ("" ++ ?x) with x.
      by rewrite <- Hp.
    + rewrite IH. cbn [skip]. rewrite string_app_assoc. reflexivity.
Qed.

(** X16. Splitting on a separator loses nothing: the parts joined by the
    separator give the text back.  The title text of an episode card is
    thus the parts that [get_season] splits it into, joined by the
    bullet. *)
Theorem join_split_sep (sep s : string) :
  sep ≠ "" → join sep (split_sep sep s) = s.
Proof. intros Hsep. unfold split_sep. by rewrite join_split_sep_from. Qed.

(** ** The match scorer, further *)

Section ScorerFurther.
Variable lower : string → string.
Variable isspace : ascii → bool.

Lemma match_score_equal (query title : string) :
  lower query = lower title → _match_score lower isspace query title = Ok 100%Q.
Proof. intros H. unfold _match_score. cbv zeta. by rewrite decide_True. Qed.

(** The score of a title that is not the query and shares a word with it. *)
Lemma match_score_formula (query title : string) :
  lower query ≠ lower title →
  kept_words isspace (lower query) ∩ kept_words isspace (lower title) ≠ ∅ →
  (0 < size (kept_words isspace (lower query)))%nat
  ∧ _match_score lower isspace query title
    = Ok (if forallb (λ word, contains word (lower title)) (split isspace (lower query))
          then (inject_Z (Z.of_nat (size (kept_words isspace (lower query)
                                          ∩ kept_words isspace (lower title))))
                / inject_Z (Z.of_nat (size (kept_words isspace (lower query)))) * 100 + 20)%Q
          else (inject_Z (Z.of_nat (size (kept_words isspace (lower query)
                                          ∩ kept_words isspace (lower title))))
                / inject_Z (Z.of_nat (size (kept_words isspace (lower query)))) * 100)%Q).
Proof.
  intros Hne Hsome.
  assert (Hpos : (0 < size (kept_words isspace (lower query)))%nat).
  { apply Nat.neq_0_lt_0. intros Hz. apply size_empty_iff, leibniz_equiv in Hz.
    apply Hsome. rewrite Hz. apply leibniz_equiv, intersection_empty_l. }
  split; [exact Hpos|].
  unfold _match_score. cbv zeta.
  fold (kept_words isspace (lower query)) (kept_words isspace (lower title)).
  rewrite decide_False by done. rewrite decide_False by done.
  unfold truediv. destruct (size (kept_words isspace (lower query))); [lia|].
  simpl. by destruct (forallb _ _).
Qed.

Lemma ratio_of_whole (n : nat) :
  (0 < n)%nat → (inject_Z (Z.of_nat n) / inject_Z (Z.of_nat n) == 1)%Q.
Proof.
  intros Hn. apply Qmult_inv_r. intros H.
  apply (Qeq_bool_neq (inject_Z (Z.of_nat n)) 0); [|exact H].
  unfold Qeq_bool. simpl. rewrite Z.mul_1_r. destruct (Z.of_nat n) eqn:E; [lia|done..].
Qed.

(** X3. When the query has a word that counts and every such word of the
    query is a word of the title, the score is at least 100: the candidate
    passes the threshold of 70. *)
Theorem match_score_all_words_found (query title : string) :
  kept_words isspace (lower query) ≠ ∅ →
  kept_words isspace (lower query) ⊆ kept_words isspace (lower title) →
  ∃ score, _match_score lower isspace query title = Ok score ∧ (100 <= score)%Q.
Proof.
  intros Hsome Hsub.
  destruct (decide (lower query = lower title)) as [Heq|Hne].
  { exists 100%Q. split; [by apply match_score_equal | lra]. }
  assert (Hcap : kept_words isspace (lower query) ∩ kept_words isspace (lower title)
                 = kept_words isspace (lower query))
    by by apply subseteq_intersection_1_L.
  destruct (match_score_formula query title Hne) as [Hpos ->]; [by rewrite Hcap|].
  rewrite Hcap. pose proof (ratio_of_whole _ Hpos) as Hone.
  eexists. split; [reflexivity|].
  destruct (forallb _ _); rewrite Hone; lra.
Qed.

(** X4. A title that is not the query itself and reaches the threshold of
    70 shares at least half of the words of the query that count, and at
    least seven in ten of them when the bonus of 20 is not given. *)
Theorem match_score_threshold_overlap (query title : string) (score : Q) :
  lower query ≠ lower title →
  _match_score lower isspace query title = Ok score →
  (70 <= score)%Q →
  let found := size (kept_words isspace (lower query) ∩ kept_words isspace (lower title)) in
  let wanted := size (kept_words isspace (lower query)) in
  (0 < found)%nat
  ∧ (wanted ≤ 2 * found)%nat
  ∧ (forallb (λ word, contains word (lower title)) (split isspace (lower query)) = false →
     (7 * wanted ≤ 10 * found)%nat).
Proof.
  intros Hne Hscore H70. cbv zeta.
  destruct (decide (kept_words isspace (lower query)
                    ∩ kept_words isspace (lower title) = ∅)) as [Hempty|Hsome].
  { exfalso. unfold _match_score in Hscore. cbv zeta in Hscore.
    fold (kept_words isspace (lower query)) (kept_words isspace (lower title)) in Hscore.
    rewrite decide_False, decide_True in Hscore by done.
    injection Hscore as <-. lra. }
  destruct (match_score_formula query title Hne Hsome) as [Hpos Hf].
  rewrite Hf in Hscore. injection Hscore as Hscore.
  set (found := size (kept_words isspace (lower query)
                      ∩ kept_words isspace (lower title))) in *.
  set (wanted := size (kept_words isspace (lower query))) in *.
  assert (Hw : (0 < inject_Z (Z.of_nat wanted))%Q)
    by (change 0%Q with (inject_Z 0); rewrite <- Zlt_Qlt; lia).
  assert (Hmul : (inject_Z (Z.of_nat wanted)
                  * (inject_Z (Z.of_nat found) / inject_Z (Z.of_nat wanted))
                  == inject_Z (Z.of_nat found))%Q).
  { apply Qmult_div_r. intros H. rewrite H in Hw. by apply Qlt_irrefl in Hw. }
  set (r := (inject_Z (Z.of_nat found) / inject_Z (Z.of_nat wanted))%Q) in *.
  set (w := inject_Z (Z.of_nat wanted)) in *.
  set (f := inject_Z (Z.of_nat found)) in *.
  assert (Hhalf : (w <= 2 * f)%Q).
  { destruct (forallb _ _); subst score; nra. }
  assert (Hfound : (0 < found)%nat).
  { apply Nat.neq_0_lt_0. intros Hz. apply size_empty_iff, leibniz_equiv in Hz. done. }
  split; [exact Hfound|]. split.
  - subst w f. change 2%Q with (inject_Z 2) in Hhalf.
    rewrite <- inject_Z_mult, <- Zle_Qle in Hhalf. lia.
  - intros Hb. rewrite Hb in Hscore. subst score.
    assert (H7 : (7 * w <= 10 * f)%Q) by nra.
    subst w f. change 7%Q with (inject_Z 7) in H7. change 10%Q with (inject_Z 10) in H7.
    rewrite <- !inject_Z_mult, <- Zle_Qle in H7. lia.
Qed.
End ScorerFurther.

(** ** The searches, further *)


(** The head of a list sorted by score, descending, has the best score. *)
Lemma sort_by_score_head {A : Type} (score : A → Q) (l : list A) (best : A) (rest : list A) :
  sort_by score (λ a b, Qle_bool b a) l = best :: rest →
  Forall (λ c, (score c <= score best)%Q) l.
Proof.
  intros Hsort.
  pose proof (sort_by_sorted score (λ a b, Qle_bool b a) Qle_bool_total Qle_bool_trans l)
    as Hsorted.
  rewrite <- (sort_by_perm score (λ a b, Qle_bool b a) l), Hsort. rewrite Hsort in Hsorted.
  apply StronglySorted_inv in Hsorted as [_ Hrest].
  constructor; [apply Qle_refl|].
  eapply Forall_impl; [exact Hrest|]. intros c Hc. by apply Qle_bool_iff.
Qed.

Section SearchFurther.
Variable lower : string → string.
Variable isspace : ascii → bool.

Lemma search_movie_Some (query : string) (soup : Soup) (results : list MovieCandidate.t) :
  search_movie lower isspace query soup = Some results →
  results = take 5 (sort_by MovieCandidate.match_score (λ a b, Qle_bool b a)
                      (passing_movies lower isspace query soup))
  ∧ passing_movies lower isspace query soup ≠ [].
Proof.
  unfold search_movie, passing_movies. rewrite search_movie_collects. cbv zeta.
  intros H. split.
  - destruct (sort_by _ _ _); [done|]. by injection H as <-.
  - intros Hnil. rewrite Hnil in H. done.
Qed.

Lemma search_person_Some (name : string) (soup : Soup) (results : list PersonCandidate.t) :
  search_person lower isspace name soup = Some results →
  results = take 5 (sort_by PersonCandidate.match_score (λ a b, Qle_bool b a)
                      (passing_persons lower isspace name soup))
  ∧ passing_persons lower isspace name soup ≠ [].
Proof.
  unfold search_person, passing_persons. rewrite search_person_collects. cbv zeta.
  intros H. split.
  - destruct (sort_by _ _ _); [done|]. by injection H as <-.
  - intros Hnil. rewrite Hnil in H. done.
Qed.

Lemma search_movie_None (query : string) (soup : Soup) :
  search_movie lower isspace query soup = None
  ↔ passing_movies lower isspace query soup = [].
Proof.
  unfold search_movie, passing_movies. rewrite search_movie_collects. cbv zeta.
  split.
  - destruct (sort_by _ _ _) eqn:Hsort; [|done]. intros _.
    apply Permutation_nil. by rewrite <- Hsort, sort_by_perm.
  - by intros ->.
Qed.

Lemma search_person_None (name : string) (soup : Soup) :
  search_person lower isspace name soup = None
  ↔ passing_persons lower isspace name soup = [].
Proof.
  unfold search_person, passing_persons. rewrite search_person_collects. cbv zeta.
  split.
  - destruct (sort_by _ _ _) eqn:Hsort; [|done]. intros _.
    apply Permutation_nil. by rewrite <- Hsort, sort_by_perm.
  - by intros ->.
Qed.

Lemma search_movie_elem (query : string) (soup : Soup)
    (results : list MovieCandidate.t) (c : MovieCandidate.t) :
  search_movie lower isspace query soup = Some results → c ∈ results →
  ∃ item, item ∈ summary_items soup
          ∧ movie_candidate lower isspace query item = Some c
          ∧ (70 <= MovieCandidate.match_score c)%Q.
Proof.
  intros [-> _]%search_movie_Some Hc.
  apply elem_of_take in Hc as (i & Hc & _).
  apply list_elem_of_lookup_2 in Hc. rewrite sort_by_perm in Hc.
  apply list_elem_of_filter in Hc as [Hscore Hc].
  apply list_elem_of_omap in Hc as (item & Hitem & Hc). eauto.
Qed.


Lemma search_tv_omap (query : string) (soup : Soup) :
  search_tv query soup = omap tv_candidate (summary_items soup).
Proof.
  unfold search_tv. rewrite collect_omap. apply list_omap_ext.
  apply Forall2_same_length_lookup_2; [done|].
  intros i item item' Hi Hi'. assert (item' = item) as -> by congruence.
  unfold appended, search_tv_item, tv_candidate, identified.
  destruct (item_t item) as [title_elem|]; [|done].
  destruct (re_search_digits _ _ _) as [digits|]; done.
Qed.


(** X2. Every candidate that movie search returns is also returned by TV
    search on the same page, with the same identifier, title, year and
    URL, whatever the queries. *)
Theorem movie_results_among_tv_results (query query' : string) (soup : Soup)
    (results : list MovieCandidate.t) :
  search_movie lower isspace query soup = Some results →
  Forall (λ c, tv_of_movie c ∈ search_tv query' soup) results.
Proof.
  intros Hres. apply Forall_forall. intros c Hc.
  destruct (search_movie_elem _ _ _ _ Hres Hc) as (item & Hitem & Hcand & _).
  rewrite search_tv_omap. apply list_elem_of_omap. exists item. split; [done|].
  unfold movie_candidate in Hcand. unfold tv_candidate.
  destruct (identified "/title/tt" item) as [[te digits]|]; [|done].
  destruct (_match_score _ _ _ _); [|done]. by injection Hcand as <-.
Qed.

(** X5. The first candidate that movie search returns has the best match
    score of the page: no candidate of the page, returned or not, scores
    more.  The same holds for person search. *)
Theorem first_result_is_best (query : string) (soup : Soup) :
  (∀ best rest, search_movie lower isspace query soup = Some (best :: rest) →
     ∀ item c, item ∈ summary_items soup →
       movie_candidate lower isspace query item = Some c →
       (MovieCandidate.match_score c <= MovieCandidate.match_score best)%Q)
  ∧ (∀ best rest, search_person lower isspace query soup = Some (best :: rest) →
     ∀ item c, item ∈ summary_items soup →
       person_candidate lower isspace query item = Some c →
       (PersonCandidate.match_score c <= PersonCandidate.match_score best)%Q).
Proof.
  split.
  - intros best rest [Hres _]%search_movie_Some item c Hitem Hc.
    destruct (sort_by MovieCandidate.match_score (λ a b, Qle_bool b a)
                (passing_movies lower isspace query soup)) as [|b ranked] eqn:Hsort;
      [done|].
    injection Hres as <- _.
    pose proof (sort_by_score_head _ _ _ _ Hsort) as Hall.
    rewrite Forall_forall in Hall.
    destruct (decide (70 <= MovieCandidate.match_score c)%Q) as [Hpass|Hfail].
    + apply Hall, list_elem_of_filter. split; [done|].
      apply list_elem_of_omap. eauto.
    + assert (Hb : best ∈ passing_movies lower isspace query soup).
      { rewrite <- (sort_by_perm MovieCandidate.match_score (λ a b, Qle_bool b a)), Hsort.
        by left. }
      apply list_elem_of_filter in Hb as [Hb _].
      apply Qnot_le_lt in Hfail. apply Qlt_le_weak. by eapply Qlt_le_trans.
  - intros best rest [Hres _]%search_person_Some item c Hitem Hc.
    destruct (sort_by PersonCandidate.match_score (λ a b, Qle_bool b a)
                (passing_persons lower isspace query soup)) as [|b ranked] eqn:Hsort;
      [done|].
    injection Hres as <- _.
    pose proof (sort_by_score_head _ _ _ _ Hsort) as Hall.
    rewrite Forall_forall in Hall.
    destruct (decide (70 <= PersonCandidate.match_score c)%Q) as [Hpass|Hfail].
    + apply Hall, list_elem_of_filter. split; [done|].
      apply list_elem_of_omap. eauto.
    + assert (Hb : best ∈ passing_persons lower isspace query soup).
      { rewrite <- (sort_by_perm PersonCandidate.match_score (λ a b, Qle_bool b a)), Hsort.
        by left. }
      apply list_elem_of_filter in Hb as [Hb _].
      apply Qnot_le_lt in Hfail. apply Qlt_le_weak. by eapply Qlt_le_trans.
Qed.

(** X6. When the page has a result with an identifier whose title is the
    query, letter case apart, movie search does not answer [None], and its
    first candidate scores 100 or more. *)
Theorem exact_title_is_found (query : string) (soup : Soup)
    (item : SummaryItem) (title_elem : TitleElem) (digits : string) :
  item ∈ summary_items soup →
  identified "/title/tt" item = Some (title_elem, digits) →
  lower query = lower (text title_elem) →
  ∃ best rest, search_movie lower isspace query soup = Some (best :: rest)
               ∧ (100 <= MovieCandidate.match_score best)%Q.
Proof.
  intros Hitem Hid Heq.
  assert (Hcand : ∃ c, movie_candidate lower isspace query item = Some c
                       ∧ MovieCandidate.match_score c = 100%Q).
  { unfold movie_candidate. rewrite Hid, (match_score_equal lower isspace _ _ Heq). eauto. }
  destruct Hcand as (c & Hc & Hscore).
  assert (Hpass : c ∈ passing_movies lower isspace query soup).
  { apply list_elem_of_filter. split; [rewrite Hscore; lra|].
    apply list_elem_of_omap. eauto. }
  destruct (search_movie lower isspace query soup) as [[|best rest]|] eqn:Hres.
  - apply search_movie_Some in Hres as [Hres _].
    destruct (sort_by MovieCandidate.match_score (λ a b, Qle_bool b a)
                (passing_movies lower isspace query soup)) eqn:Hsort; [|done].
    rewrite <- (sort_by_perm MovieCandidate.match_score (λ a b, Qle_bool b a)), Hsort in Hpass.
    by apply elem_of_nil in Hpass.
  - exists best, rest. split; [done|].
    apply search_movie_Some in Hres as [Hres _].
    destruct (sort_by MovieCandidate.match_score (λ a b, Qle_bool b a)
                (passing_movies lower isspace query soup)) as [|b ranked] eqn:Hsort;
      [done|].
    injection Hres as <- _.
    pose proof (sort_by_score_head _ _ _ _ Hsort) as Hall.
    rewrite Forall_forall in Hall. specialize (Hall c Hpass). by rewrite Hscore in Hall.
  - apply search_movie_None in Hres. rewrite Hres in Hpass.
    by apply elem_of_nil in Hpass.
Qed.
End SearchFurther.

(** ** The detail fetchers, further *)

Lemma py_get_field (m : gmap string json) (key : string) (default : json) :
  py_get (JObj m) key default = Ok (field m key default).
Proof. reflexivity. Qed.

Lemma py_get_Ok (obj value default : json) (key : string) :
  py_get obj key default = Ok value →
  ∃ m, obj = JObj m ∧ value = field m key default.
Proof. destruct obj; try discriminate. intros [= <-]. eauto. Qed.

Lemma py_get_is_object (obj default : json) (key : string) :
  is_object obj → ∃ value, py_get obj key default = Ok value.
Proof. destruct obj; try done. eauto. Qed.

Lemma slice4_Ok (x : json) : sliceable x ↔ ∃ y, slice4 x = Ok y.
Proof. destruct x; simpl; split; try done; eauto; by intros [? ?]. Qed.

Lemma block_object_Some (soup : Soup) (m : gmap string json) :
  block_object soup = Some m ↔
  ∃ script, ld_json soup = Some script ∧ json_loads_string script = Ok (JObj m).
Proof.
  unfold block_object. split.
  - destruct (ld_json soup) as [script|]; [|done].
    destruct (json_loads_string script) as [[]|] eqn:H; try done.
    intros [= <-]. eauto.
  - intros (script & -> & ->). done.
Qed.

Lemma listed_field (soup : Soup) (m : gmap string json) (role : string) :
  block_object soup = Some m → listed role soup = as_list (field m role (JList [])).
Proof.
  intros (script & Hs & Hl)%block_object_Some. unfold listed, field.
  rewrite Hs, Hl. by destruct (m !! role).
Qed.

Lemma with_images_credited (nodes : list CardNode) (people : list json) :
  ∀ i, Forall is_object people →
    with_images nodes i people
    = Ok (imap (λ k person, {| PersonRef.name := name_of person;
                               PersonRef.image := image_at nodes (i + k) |}) people).
Proof.
  induction people as [|person people IH]; intros i Hall; [done|].
  apply Forall_cons in Hall as [Hperson Hall].
  destruct person; try done. cbn [with_images]. rewrite py_get_field.
  simpl. rewrite (IH (S i) Hall). simpl. unfold image_at at 2.
  rewrite Nat.add_0_r. do 2 f_equal.
  apply imap_ext. intros k p _. simpl. do 2 f_equal. lia.
Qed.

Lemma with_images_objects (nodes : list CardNode) (people : list json) :
  ∀ i refs, with_images nodes i people = Ok refs → Forall is_object people.
Proof.
  induction people as [|person people IH]; intros i refs H; [constructor|].
  cbn [with_images] in H. bind_inv H. bind_inv H.
  apply py_get_Ok in Hx as (m & -> & _). constructor; [done | eauto].
Qed.

Lemma with_images_Ok (nodes : list CardNode) (people : list json) (refs : list PersonRef.t) :
  with_images nodes 0 people = Ok refs →
  Forall is_object people ∧ refs = credited nodes people.
Proof.
  intros H. pose proof (with_images_objects _ _ _ _ H) as Hall.
  split; [done|]. rewrite (with_images_credited nodes people 0 Hall) in H.
  by injection H as <-.
Qed.

Lemma bind_intro {A B : Type} (m : result A) (f : A → result B) (a : A) (b : B) :
  m = Ok a → f a = Ok b → m ≫= f = Ok b.
Proof. by intros -> <-. Qed.

Ltac bind_step tac := eapply bind_intro; [tac|]; cbv beta.

Section FetcherFurther.
Variable isspace : ascii → bool.

(** What [get_movie] returns, field by field. *)
Lemma get_movie_inv (soup : Soup) (movie : Movie.t) :
  get_movie isspace soup = Some movie →
  ∃ m, block_object soup = Some m
    ∧ block_usable 5 "director" m
    ∧ Movie.cast movie
      = credited (title_cast_items soup) (take 5 (as_list (field m "actor" (JList []))))
    ∧ Movie.directors movie
      = credited (principal_credit_links soup) (as_list (field m "director" (JList [])))
    ∧ Movie.title movie = field m "name" (JStr "")
    ∧ Movie.full_size_cover_url movie = field m "image" (JStr "")
    ∧ py_get (field m "aggregateRating" (JObj ∅)) "ratingValue" JNull = Ok (Movie.rating movie)
    ∧ slice4 (field m "datePublished" (JStr "")) = Ok (Movie.year movie)
    ∧ Movie.genres movie = field m "genre" (JList []).
Proof.
  intros (script & Hs & H)%get_movie_Some.
  unfold get_movie_try in H. cbv zeta in H.
  repeat bind_inv H. injection H as <-.
  apply py_get_Ok in Hx1 as (m & -> & ->).
  repeat match goal with
         | Hg : py_get (JObj _) _ _ = Ok _ |- _ =>
             rewrite py_get_field in Hg; injection Hg as <-
         | Hw : with_images _ 0 _ = Ok _ |- _ => apply with_images_Ok in Hw as [? ->]
         end.
  exists m. split; [apply block_object_Some; eauto|].
  split.
  { repeat split; try done.
    - by apply py_get_Ok in Hx8 as (? & -> & _).
    - apply slice4_Ok. eauto. }
  cbn. repeat split; done.
Qed.

Lemma get_movie_usable (soup : Soup) (m : gmap string json) :
  block_object soup = Some m → block_usable 5 "director" m →
  is_Some (get_movie isspace soup).
Proof.
  intros (script & Hs & Hl)%block_object_Some (Hactors & Hdirectors & Hagg & Hdate).
  assert (Hplot : ∃ plot,
    match plot_xl soup with
    | Some t =>
        match strip isspace t with
        | "" => py_get (JObj m) "description" (JStr "")
        | String a s => Ok (JStr (String a s))
        end
    | None => py_get (JObj m) "description" (JStr "")
    end = Ok plot).
  { destruct (plot_xl soup) as [t|]; [destruct (strip isspace t)|]; eauto. }
  destruct Hplot as [plot Hplot].
  destruct (py_get_is_object _ JNull "ratingValue" Hagg) as [rating Hrating].
  apply slice4_Ok in Hdate as [year Hyear].
  enough (∃ movie, get_movie_try isspace soup script = Ok movie) as [movie Hmovie].
  { unfold get_movie. rewrite Hs, Hmovie. eauto. }
  eexists. unfold get_movie_try. cbv zeta.
  bind_step ltac:(exact Hl). bind_step ltac:(exact Hplot).
  bind_step ltac:(apply py_get_field).
  bind_step ltac:(by apply with_images_credited).
  bind_step ltac:(apply py_get_field).
  bind_step ltac:(by apply with_images_credited).
  bind_step ltac:(apply py_get_field). bind_step ltac:(apply py_get_field).
  bind_step ltac:(apply py_get_field). bind_step ltac:(exact Hrating).
  bind_step ltac:(apply py_get_field). bind_step ltac:(exact Hyear).
  bind_step ltac:(apply py_get_field). reflexivity.
Qed.

(** What [get_show] returns, field by field. *)
Lemma get_show_inv (soup : Soup) (show : Show.t) :
  get_show isspace soup = Some show →
  ∃ m, block_object soup = Some m
    ∧ block_usable 10 "creator" m
    ∧ header_readable soup
    ∧ Show.cast show
      = credited (title_cast_items soup) (take 10 (as_list (field m "actor" (JList []))))
    ∧ Show.creators show
      = credited (principal_credit_links soup) (as_list (field m "creator" (JList [])))
    ∧ Show.title show = field m "name" (JStr "")
    ∧ Show.full_size_cover_url show = field m "image" (JStr "")
    ∧ py_get (field m "aggregateRating" (JObj ∅)) "ratingValue" JNull = Ok (Show.rating show)
    ∧ slice4 (field m "datePublished" (JStr "")) = Ok (Show.year show)
    ∧ Show.genres show = field m "genre" (JList [])
    ∧ match episodes_header_span soup with
      | None => Show.number_of_seasons show = 0%Z
      | Some t => ∃ digits, re_search_digits "" "" t = Some digits
                            ∧ Show.number_of_seasons show = int_from 0 digits
      end.
Proof.
  intros (script & Hs & H)%get_show_Some.
  unfold get_show_try in H. cbv zeta in H.
  repeat bind_inv H. injection H as <-.
  apply py_get_Ok in Hx2 as (m & -> & ->).
  repeat match goal with
         | Hg : py_get (JObj _) _ _ = Ok _ |- _ =>
             rewrite py_get_field in Hg; injection Hg as <-
         | Hw : with_images _ 0 _ = Ok _ |- _ => apply with_images_Ok in Hw as [? ->]
         end.
  assert (Hheader :
    match episodes_header_span soup with
    | None => x1 = 0%Z
    | Some t => ∃ digits, re_search_digits "" "" t = Some digits
                          ∧ (String.length digits ≤ int_max_str_digits)%nat
                          ∧ x1 = int_from 0 digits
    end).
  { destruct (episodes_header_span soup) as [t|]; [|by injection Hx1 as <-].
    destruct (re_search_digits "" "" t) as [digits|]; [|done].
    exists digits. unfold int in Hx1.
    destruct (Nat.leb (String.length digits) int_max_str_digits) eqn:Hlen; [|done].
    apply Nat.leb_le in Hlen. by injection Hx1 as <-. }
  exists m. split; [apply block_object_Some; eauto|].
  split.
  { repeat split; try done.
    - by apply py_get_Ok in Hx9 as (? & -> & _).
    - apply slice4_Ok. eauto. }
  split.
  { unfold header_readable. destruct (episodes_header_span soup); [|done].
    destruct Hheader as (digits & ? & ? & ?). eauto. }
  cbn. repeat split; try done.
  destruct (episodes_header_span soup); [|done].
  destruct Hheader as (digits & ? & ? & ?). eauto.
Qed.

Lemma get_person_Some (soup : Soup) (person : Person.t) :
  get_person isspace soup = Some person →
  ∃ script, ld_json soup = Some script ∧ get_person_try isspace soup script = Ok person.
Proof.
  unfold get_person. destruct (ld_json soup) as [script|]; [|done].
  destruct (get_person_try isspace soup script) eqn:H; [|done].
  intros [= <-]. eauto.
Qed.

(** X7. [get_movie] returns a record exactly when the structured block of
    the page loads as an object in which the first five actors and all the
    directors are objects, the aggregate rating, if any, is an object, and
    the publication date, if any, is a string or a list. *)
Theorem get_movie_succeeds_iff (soup : Soup) :
  is_Some (get_movie isspace soup)
  ↔ ∃ m, block_object soup = Some m ∧ block_usable 5 "director" m.
Proof.
  split.
  - intros [movie (m & ? & ? & _)%get_movie_inv]. eauto.
  - intros (m & ? & ?). by eapply get_movie_usable.
Qed.


(** X9. [get_person] returns a record exactly when the structured block of
    the page loads as an object: no key of the block and no element of the
    page is needed. *)
Theorem get_person_succeeds_iff (soup : Soup) :
  is_Some (get_person isspace soup) ↔ is_Some (block_object soup).
Proof.
  split.
  - intros [person (script & Hs & H)%get_person_Some].
    unfold get_person_try in H. repeat bind_inv H.
    apply py_get_Ok in Hx2 as (m & -> & _).
    exists m. apply block_object_Some. eauto.
  - intros [m (script & Hs & Hl)%block_object_Some].
    unfold get_person, get_person_try. rewrite Hs, Hl.
    destruct (biography soup), (hero_image soup); simpl; eauto.
Qed.

(** X10. Positional alignment.  The cast of a movie record is the first
    five people that the block lists as actors, each with the name that
    the block gives and with the image of the cast card of the same rank,
    [None] when the page has no card of that rank or the card has no
    image; its directors are all the directors of the block, aligned in
    the same way with the principal-credit links.  The same holds for a
    show, with ten actors and the creators. *)
Theorem people_aligned_by_rank (soup : Soup) :
  (∀ movie, get_movie isspace soup = Some movie →
     Movie.cast movie = credited (title_cast_items soup) (take 5 (listed "actor" soup))
     ∧ Movie.directors movie
       = credited (principal_credit_links soup) (listed "director" soup)
     ∧ ∀ i ref, Movie.cast movie !! i = Some ref →
         (length (title_cast_items soup) ≤ i)%nat → PersonRef.image ref = None)
  ∧ (∀ show, get_show isspace soup = Some show →
     Show.cast show = credited (title_cast_items soup) (take 10 (listed "actor" soup))
     ∧ Show.creators show
       = credited (principal_credit_links soup) (listed "creator" soup)
     ∧ ∀ i ref, Show.cast show !! i = Some ref →
         (length (title_cast_items soup) ≤ i)%nat → PersonRef.image ref = None).
Proof.
  assert (Hnone : ∀ nodes people i ref,
            credited nodes people !! i = Some ref →
            (length nodes ≤ i)%nat → PersonRef.image ref = None).
  { intros nodes people i ref Href Hlen. unfold credited in Href.
    apply list_lookup_imap_Some in Href as (p & _ & ->). simpl.
    unfold image_at. by rewrite (lookup_ge_None_2 nodes i Hlen). }
  split.
  - intros movie (m & Hm & _ & Hcast & Hdir & _)%get_movie_inv.
    rewrite !(listed_field soup m) by done. rewrite Hcast, Hdir. eauto.
  - intros show (m & Hm & _ & _ & Hcast & Hcre & _)%get_show_inv.
    rewrite !(listed_field soup m) by done. rewrite Hcast, Hcre. eauto.
Qed.

Lemma take_imap {A B : Type} (f : nat → A → B) (n : nat) (l : list A) :
  take n (imap f l) = imap f (take n l).
Proof.
  revert f n. induction l as [|x l IH]; intros f [|n]; simpl; try done.
  by rewrite IH.
Qed.

(** X11. When [get_movie] and [get_show] both return a record for a page,
    the two records have the same title, cover, rating, year and genres,
    and the cast of the movie record is the first five of the cast of the
    show record. *)
Theorem movie_and_show_agree (soup : Soup) (movie : Movie.t) (show : Show.t) :
  get_movie isspace soup = Some movie →
  get_show isspace soup = Some show →
  Movie.title movie = Show.title show
  ∧ Movie.full_size_cover_url movie = Show.full_size_cover_url show
  ∧ Movie.rating movie = Show.rating show
  ∧ Movie.year movie = Show.year show
  ∧ Movie.genres movie = Show.genres show
  ∧ Movie.cast movie = take 5 (Show.cast show).
Proof.
  intros (m & Hm & _ & Hcast & _ & Htitle & Hcover & Hrating & Hyear & Hgenres)%get_movie_inv
         (m' & Hm' & _ & _ & Hcast' & _ & Htitle' & Hcover' & Hrating' & Hyear' & Hgenres' & _)
           %get_show_inv.
  assert (m' = m) as -> by congruence.
  repeat split; try congruence.
  rewrite Hcast, Hcast'. unfold credited. by rewrite take_imap, take_take.
Qed.


(** X17. Keys that the block of a movie page lacks give defaults, not a
    failure: an empty title, cover and plot, no rating, an empty cast, no
    directors and no genres; and a rating that the block has is passed on
    as it is. *)
Theorem movie_missing_keys_default (soup : Soup) (movie : Movie.t) (m : gmap string json) :
  get_movie isspace soup = Some movie →
  block_object soup = Some m →
  (m !! "name" = None → Movie.title movie = JStr "")
  ∧ (m !! "image" = None → Movie.full_size_cover_url movie = JStr "")
  ∧ (m !! "genre" = None → Movie.genres movie = JList [])
  ∧ (m !! "actor" = None → Movie.cast movie = [])
  ∧ (m !! "director" = None → Movie.directors movie = [])
  ∧ (m !! "aggregateRating" = None → Movie.rating movie = JNull)
  ∧ (∀ aggregate, m !! "aggregateRating" = Some (JObj aggregate) →
       Movie.rating movie = default JNull (aggregate !! "ratingValue"))
  ∧ (m !! "description" = None → plot_xl soup = None → Movie.plot_outline movie = JStr "").
Proof.
  intros Hmovie Hm. pose proof (get_movie_plot isspace soup movie Hmovie) as Hplot.
  apply get_movie_inv in Hmovie
    as (m' & Hm' & _ & Hcast & Hdir & Htitle & Hcover & Hrating & _ & Hgenres).
  assert (m' = m) as -> by congruence. unfold field in *.
  repeat split.
  - intros H. by rewrite H in Htitle.
  - intros H. by rewrite H in Hcover.
  - intros H. by rewrite H in Hgenres.
  - intros H. by rewrite H in Hcast.
  - intros H. by rewrite H in Hdir.
  - intros H. rewrite H in Hrating. simpl in Hrating. by injection Hrating as <-.
  - intros aggregate H. rewrite H in Hrating. simpl in Hrating.
    injection Hrating as <-. by destruct (aggregate !! "ratingValue").
  - intros H Hspan. unfold resolved_plot, description in Hplot.
    apply block_object_Some in Hm as (script & Hs & Hl).
    rewrite Hspan, Hs, Hl, H in Hplot. by injection Hplot as <-.
Qed.

(** X18. [get_person] falls back to the block only for an element that is
    absent: a biography element gives its trimmed text, even when that is
    empty, and a hero image gives its [src], even when it has none; the
    description and the image of the block are used when the page has no
    such element. *)
Theorem person_fallbacks (soup : Soup) (person : Person.t) (m : gmap string json) :
  get_person isspace soup = Some person →
  block_object soup = Some m →
  (∀ t, biography soup = Some t → Person.bio person = JStr (strip isspace t))
  ∧ (biography soup = None → Person.bio person = field m "description" (JStr ""))
  ∧ (∀ img u, hero_image soup = Some img → src img = Some u →
       Person.headshot person = JStr u)
  ∧ (∀ img, hero_image soup = Some img → src img = None →
       Person.headshot person = JNull)
  ∧ (hero_image soup = None → Person.headshot person = field m "image" (JStr "")).
Proof.
  intros (script & Hs & H)%get_person_Some (script' & Hs' & Hl)%block_object_Some.
  assert (script' = script) as -> by congruence.
  unfold get_person_try in H. rewrite Hl in H. cbn [mbind result_bind] in H.
  repeat bind_inv H. injection H as <-. cbn.
  repeat split.
  - intros t Ht. rewrite Ht in Hx. by injection Hx as <-.
  - intros Ht. rewrite Ht in Hx. by injection Hx as <-.
  - intros img u Himg Hu. rewrite Himg, Hu in Hx0. by injection Hx0 as <-.
  - intros img Himg Hu. rewrite Himg, Hu in Hx0. by injection Hx0 as <-.
  - intros Himg. rewrite Himg in Hx0. by injection Hx0 as <-.
Qed.
End FetcherFurther.

(** ** The season, further *)

Lemma int_from_nonneg (digits : string) :
  ∀ acc, (0 ≤ acc)%Z → (0 ≤ int_from acc digits)%Z.
Proof.
  induction digits as [|c digits IH]; intros acc Hacc; [done|].
  simpl. apply IH. unfold digit_value. lia.
Qed.

Section TextFurther.
Variable isspace : ascii → bool.

Lemma lstrip_no_lead (s : string) : no_lead isspace (lstrip isspace s).
Proof.
  induction s as [|c s IH]; [done|]. simpl.
  by destruct (isspace c) eqn:Hc.
Qed.

Lemma no_lead_lstrip (s : string) : no_lead isspace s → lstrip isspace s = s.
Proof. destruct s as [|c s]; [done|]. simpl. by intros ->. Qed.

Lemma rstrip_no_lead (s : string) :
  no_lead isspace s → no_lead isspace (rstrip isspace s).
Proof.
  destruct s as [|c s]; [done|]. simpl. intros Hc.
  destruct (rstrip isspace s); [by rewrite Hc | done].
Qed.

Lemma rstrip_rstrip (s : string) : rstrip isspace (rstrip isspace s) = rstrip isspace s.
Proof.
  induction s as [|c s IH]; [done|]. simpl.
  destruct (rstrip isspace s) as [|c' r] eqn:Hr.
  - destruct (isspace c) eqn:Hc; [done|]. simpl. by rewrite Hc.
  - cbn [rstrip]. cbn [rstrip] in IH. by rewrite IH.
Qed.

Lemma strip_trimmed (s : string) : trimmed isspace (strip isspace s).
Proof.
  unfold trimmed, strip. split; [|apply rstrip_rstrip].
  apply no_lead_lstrip, rstrip_no_lead, lstrip_no_lead.
Qed.

Lemma list_ascii_of_string_app (a b : string) :
  list_ascii_of_string (a ++ b) = (list_ascii_of_string a ++ list_ascii_of_string b)%list.
Proof.
  induction a as [|c a IH]; [done|]. rewrite append_cons. simpl. by rewrite IH.
Qed.

Lemma split_from_tokens (s : string) :
  ∀ word, spaceless isspace word →
    Forall (λ token, token ≠ "" ∧ spaceless isspace token) (split_from isspace word s).
Proof.
  induction s as [|c s IH]; intros word Hword; simpl.
  - unfold flush.
    destruct word; [constructor | constructor; [split; [done | exact Hword] | constructor]].
  - destruct (isspace c) eqn:Hc.
    + apply Forall_app. split; [|apply IH; constructor].
      unfold flush.
      destruct word; [constructor | constructor; [split; [done | exact Hword] | constructor]].
    + apply IH. unfold spaceless. rewrite list_ascii_of_string_app.
      apply Forall_app. split; [done|]. by repeat constructor.
Qed.

(** What an episode card gives, field by field. *)
Lemma get_season_node_inv (node : EpisodeNode) (episode : Episode.t) :
  get_season_node isspace node = Ok (Some episode) →
  ∃ t, ipc_title_text node = Some t
    ∧ match split_sep bullet (strip isspace t) with
      | part0 :: part1 :: _ =>
          Episode.title episode = strip isspace part1
          ∧ match re_search_digits "Ep" "" part0 with
            | Some digits => Episode.episode_number episode = int_from 0 digits
            | None => Episode.episode_number episode = 0%Z
            end
      | _ => Episode.title episode = strip isspace t
             ∧ Episode.episode_number episode = 0%Z
      end
    ∧ Episode.plot episode
      = match ipc_html_content_inner_div node with
        | Some p => strip isspace p
        | None => ""
        end
    ∧ Episode.original_air_date episode
      = match episode_air_date node with
        | Some d => strip isspace d
        | None => ""
        end
    ∧ match ipc_rating_star_imdb node with
      | Some r => ∃ rest, split isspace r = default "" (Episode.rating episode) :: rest
                          ∧ is_Some (Episode.rating episode)
      | None => Episode.rating episode = None
      end.
Proof.
  unfold get_season_node. destruct (ipc_title_text node) as [t|]; [|done].
  cbv zeta. intros H. bind_inv H. destruct x as [ep_num ep_title].
  bind_inv H. injection H as <-. exists t. split; [done|]. cbn.
  split; [|split; [done|split; [done|]]].
  - destruct (split_sep bullet (strip isspace t)) as [|part0 [|part1 parts]];
      try by injection Hx as <- <-.
    bind_inv Hx. injection Hx as <- <-. split; [done|].
    destruct (re_search_digits "Ep" "" part0) as [digits|]; [|by injection Hx1 as <-].
    unfold int in Hx1. destruct (Nat.leb _ _); [|done]. by injection Hx1 as <-.
  - destruct (ipc_rating_star_imdb node) as [r|]; [|by injection Hx0 as <-].
    destruct (split isspace r) as [|first rest]; [done|].
    injection Hx0 as <-. eauto.
Qed.

(** X13. The numbers that are read from a page are never negative: the
    number of seasons of a show record and the episode number of every
    episode of a season record. *)
Theorem parsed_numbers_nonnegative (soup : Soup) (season_number : Z) :
  (∀ show, get_show isspace soup = Some show → (0 ≤ Show.number_of_seasons show)%Z)
  ∧ Forall (λ e, (0 ≤ Episode.episode_number e)%Z)
      (Season.episodes (get_season isspace soup season_number)).
Proof.
  split.
  - intros show (m & _ & _ & _ & _ & _ & _ & _ & _ & _ & _ & H)%get_show_inv.
    destruct (episodes_header_span soup); [|lia].
    destruct H as (digits & _ & ->). by apply int_from_nonneg.
  - rewrite get_season_episodes, sort_by_perm. unfold emitted.
    rewrite collect_omap. apply Forall_forall. intros e He.
    apply list_elem_of_omap in He as (node & _ & He). unfold appended in He.
    destruct (get_season_node isspace node) as [[e'|]|] eqn:Hnode; try done.
    injection He as ->. apply get_season_node_inv in Hnode as (t & _ & H & _).
    destruct (split_sep bullet (strip isspace t)) as [|part0 [|part1 parts]];
      try (destruct H as [_ ->]; lia).
    destruct H as [_ H]. destruct (re_search_digits "Ep" "" part0); rewrite H; [|lia].
    by apply int_from_nonneg.
Qed.

(** X14. The texts of every episode of a season record are trimmed: the
    title, the plot and the air date neither start nor end with
    whitespace, and the rating, when there is one, is not empty and holds
    no whitespace. *)
Theorem episode_texts_trimmed (soup : Soup) (season_number : Z) :
  Forall (λ e, trimmed isspace (Episode.title e)
               ∧ trimmed isspace (Episode.plot e)
               ∧ trimmed isspace (Episode.original_air_date e)
               ∧ ∀ r, Episode.rating e = Some r → r ≠ "" ∧ spaceless isspace r)
    (Season.episodes (get_season isspace soup season_number)).
Proof.
  rewrite get_season_episodes, sort_by_perm. unfold emitted.
  rewrite collect_omap. apply Forall_forall. intros e He.
  apply list_elem_of_omap in He as (node & _ & He). unfold appended in He.
  destruct (get_season_node isspace node) as [[e'|]|] eqn:Hnode; try done.
  injection He as ->.
  apply get_season_node_inv in Hnode as (t & _ & Htitle & -> & -> & Hrating).
  split; [|split; [|split]].
  - destruct (split_sep bullet (strip isspace t)) as [|part0 [|part1 parts]];
      destruct Htitle as [-> _]; apply strip_trimmed.
  - destruct (ipc_html_content_inner_div node); [apply strip_trimmed | done].
  - destruct (episode_air_date node); [apply strip_trimmed | done].
  - intros r Hr. rewrite Hr in Hrating.
    destruct (ipc_rating_star_imdb node) as [text|]; [|done].
    destruct Hrating as (rest & Hsplit & _). simpl in Hsplit.
    pose proof (split_from_tokens text "" (Forall_nil_2 _)) as Htokens.
    fold (split isspace text) in Htokens. rewrite Hsplit in Htokens.
    by apply Forall_cons in Htokens as [? _].
Qed.

(** X15. An episode card without a title element, or whose rating element
    holds no token, gives no episode: the season record is the one of the
    page without the card. *)
Theorem card_without_title_or_rating_dropped
    (soup soup' : Soup) (before after : list EpisodeNode) (node : EpisodeNode)
    (season_number : Z) :
  ipc_title_text node = None
  ∨ (∃ r, ipc_rating_star_imdb node = Some r ∧ split isspace r = []) →
  episode_item_wrappers soup = (before ++ node :: after)%list →
  episode_item_wrappers soup' = (before ++ after)%list →
  get_season isspace soup season_number = get_season isspace soup' season_number.
Proof.
  intros Hnode Hsoup Hsoup'. unfold get_season. rewrite Hsoup, Hsoup'.
  do 2 f_equal. rewrite !collect_omap, !omap_app. f_equal. simpl.
  assert (appended (get_season_node isspace) node = None) as ->; [|done].
  unfold appended, get_season_node.
  destruct Hnode as [-> | (r & Hr & Hsplit)]; [done|].
  destruct (ipc_title_text node) as [t|]; [|done]. cbv zeta. rewrite Hr, Hsplit.
  match goal with |- context [?a ≫= _] => destruct a as [[? ?]|] end; done.
Qed.
End TextFurther.

(** ** The further properties on concrete pages *)


Lemma movie_results_among_tv_results_matrix :
  ∃ results,
    search_movie ascii_lower ascii_isspace "The Matrix" matrix_results = Some results
    ∧ Forall (λ c, tv_of_movie c ∈ search_tv "Inception" matrix_results) results.
Proof.
  eexists. split; [vm_compute; reflexivity|].
  apply (movie_results_among_tv_results ascii_lower ascii_isspace "The Matrix").
  vm_compute. reflexivity.
Defined.

Lemma match_score_all_words_found_matrix :
  ∃ score, _match_score ascii_lower ascii_isspace "a matrix" "The Matrix Reloaded" = Ok score
           ∧ (100 <= score)%Q.
Proof.
  apply match_score_all_words_found.
  - apply (bool_decide_unpack _). vm_compute. exact I.
  - apply (bool_decide_unpack _). vm_compute. exact I.
Defined.

Lemma match_score_threshold_overlap_matrix :
  (0 < size (kept_words ascii_isspace (ascii_lower "matrix reloaded")
             ∩ kept_words ascii_isspace (ascii_lower "Matrix Reloaded 2")))%nat.
Proof.
  eapply (match_score_threshold_overlap ascii_lower ascii_isspace
            "matrix reloaded" "Matrix Reloaded 2").
  - vm_compute. discriminate.
  - vm_compute. reflexivity.
  - vm_compute. discriminate.
Defined.

Lemma first_result_is_best_matrix :
  ∃ best rest,
    search_movie ascii_lower ascii_isspace "The Matrix" matrix_results = Some (best :: rest)
    ∧ ∀ item c, item ∈ summary_items matrix_results →
        movie_candidate ascii_lower ascii_isspace "The Matrix" item = Some c →
        (MovieCandidate.match_score c <= MovieCandidate.match_score best)%Q.
Proof.
  eexists. eexists. split; [vm_compute; reflexivity|].
  eapply (proj1 (first_result_is_best ascii_lower ascii_isspace "The Matrix" matrix_results)).
  vm_compute. reflexivity.
Defined.

Lemma exact_title_is_found_matrix :
  ∃ best rest,
    search_movie ascii_lower ascii_isspace "the matrix" matrix_results = Some (best :: rest)
    ∧ (100 <= MovieCandidate.match_score best)%Q.
Proof.
  apply (exact_title_is_found ascii_lower ascii_isspace "the matrix" matrix_results
           (title_result "/title/tt0000003/" "The Matrix")
           {| href := Some "/title/tt0000003/"; text := "The Matrix" |} "0000003").
  - apply list_elem_of_lookup_2 with 2. reflexivity.
  - reflexivity.
  - reflexivity.
Defined.

Lemma people_aligned_by_rank_movie_page :
  ∃ movie,
    get_movie ascii_isspace movie_page = Some movie
    ∧ Movie.cast movie
      = credited (title_cast_items movie_page) (take 5 (listed "actor" movie_page))
    ∧ Movie.directors movie
      = credited (principal_credit_links movie_page) (listed "director" movie_page)
    ∧ ∀ i ref, Movie.cast movie !! i = Some ref →
        (length (title_cast_items movie_page) ≤ i)%nat → PersonRef.image ref = None.
Proof.
  eexists. split; [vm_compute; reflexivity|].
  apply (proj1 (people_aligned_by_rank ascii_isspace movie_page)).
  vm_compute. reflexivity.
Defined.

Example movie_page_cast :
  option_map (λ movie, map (λ ref, (PersonRef.name ref, PersonRef.image ref)) (Movie.cast movie))
    (get_movie ascii_isspace movie_page)
  = Some [(JStr "Keanu Reeves", Some "keanu.jpg"); (JStr "Carrie-Anne Moss", None)].
Proof. vm_compute. reflexivity. Qed.

Lemma movie_and_show_agree_the_show :
  ∃ movie show,
    get_movie ascii_isspace (title_page (Some the_show) None None) = Some movie
    ∧ get_show ascii_isspace (title_page (Some the_show) None None) = Some show
    ∧ Movie.title movie = Show.title show
    ∧ Movie.full_size_cover_url movie = Show.full_size_cover_url show
    ∧ Movie.rating movie = Show.rating show
    ∧ Movie.year movie = Show.year show
    ∧ Movie.genres movie = Show.genres show
    ∧ Movie.cast movie = take 5 (Show.cast show).
Proof.
  eexists. eexists.
  split; [vm_compute; reflexivity|]. split; [vm_compute; reflexivity|].
  apply (movie_and_show_agree ascii_isspace (title_page (Some the_show) None None));
    vm_compute; reflexivity.
Defined.


Lemma parsed_numbers_nonnegative_the_show :
  ∃ show,
    get_show ascii_isspace (title_page (Some the_show) None (Some "12 episodes")) = Some show
    ∧ (0 ≤ Show.number_of_seasons show)%Z.
Proof.
  eexists. split; [vm_compute; reflexivity|].
  apply (proj1 (parsed_numbers_nonnegative ascii_isspace
                  (title_page (Some the_show) None (Some "12 episodes")) 1)).
  vm_compute. reflexivity.
Defined.

Lemma episode_texts_trimmed_rated_card :
  Forall (λ e, trimmed ascii_isspace (Episode.title e)
               ∧ trimmed ascii_isspace (Episode.plot e)
               ∧ trimmed ascii_isspace (Episode.original_air_date e)
               ∧ ∀ r, Episode.rating e = Some r → r ≠ "" ∧ spaceless ascii_isspace r)
    (Season.episodes (get_season ascii_isspace (episodes_page [rated_card]) 1)).
Proof. apply (episode_texts_trimmed ascii_isspace (episodes_page [rated_card]) 1). Defined.

Example rated_card_episode :
  get_season_node ascii_isspace rated_card
  = Ok (Some {| Episode.title := "One"; Episode.episode_title := "One";
                Episode.episode_number := 1; Episode.plot := "The first one.";
                Episode.original_air_date := "Mon, Jan 1, 2024";
                Episode.rating := Some "8.1/10" |}).
Proof. vm_compute. reflexivity. Qed.

Lemma card_without_title_or_rating_dropped_blank :
  get_season ascii_isspace (episodes_page [rated_card; blank_rating_card]) 1
  = get_season ascii_isspace (episodes_page [rated_card]) 1.
Proof.
  apply (card_without_title_or_rating_dropped ascii_isspace _ _
           [rated_card] [] blank_rating_card).
  - right. exists "  ". split; reflexivity.
  - reflexivity.
  - reflexivity.
Defined.

Lemma join_split_sep_bullet :
  join bullet (split_sep bullet ("S1, Ep3 " ++ bullet ++ " Pilot Episode"))
  = "S1, Ep3 " ++ bullet ++ " Pilot Episode".
Proof. apply join_split_sep. vm_compute. discriminate. Defined.

Lemma movie_missing_keys_default_movie_page :
  ∃ movie,
    get_movie ascii_isspace movie_page = Some movie
    ∧ Movie.genres movie = JList []
    ∧ Movie.full_size_cover_url movie = JStr ""
    ∧ Movie.plot_outline movie = JStr "".
Proof.
  destruct (get_movie ascii_isspace movie_page) as [movie|] eqn:E;
    [|vm_compute in E; discriminate].
  destruct (movie_missing_keys_default ascii_isspace movie_page movie
              (list_to_map the_movie_fields) E eq_refl)
    as (_ & Hcover & Hgenres & _ & _ & _ & _ & Hplot).
  exists movie. split; [reflexivity|].
  split; [apply Hgenres; vm_compute; reflexivity|].
  split; [apply Hcover; vm_compute; reflexivity|].
  apply Hplot; vm_compute; reflexivity.
Defined.

Lemma person_fallbacks_person_page :
  ∃ person,
    get_person ascii_isspace person_page = Some person
    ∧ Person.bio person = JStr (strip ascii_isspace "  ")
    ∧ Person.headshot person = JNull.
Proof.
  destruct (get_person ascii_isspace person_page) as [person|] eqn:E;
    [|vm_compute in E; discriminate].
  destruct (person_fallbacks ascii_isspace person_page person
              (list_to_map the_person_fields) E eq_refl)
    as (Hbio & _ & _ & Hshot & _).
  exists person. split; [reflexivity|].
  split; [by apply Hbio | by apply (Hshot {| src := None |})].
Defined.
